(** * transfer_depth: scoring engine and trend monitor

    A shallow embedding of [token_depth.py] (one-shot query) and
    [token_jt.py] (continuous monitor).  Both files share the scoring
    functions [calculate_depth], [evaluate_liquidity], [assess_risk] and
    [standardize_score] verbatim; [token_jt.py] adds [monitor_token].

    Python floats are IEEE 754 binary64 values; they are modelled by
    [spec_float] at precision 53 and maximal exponent 1024, whose
    operations round to nearest even exactly as the hardware does.  The
    integer constants of the program (0, 1, 2, 4, 40, 50, 60, 80, 100) are
    exactly representable, and Python converts an int operand of a mixed
    operation to that very double, so they are embedded as floats. *)

From Stdlib Require Import ZArith Bool List String Ascii Lia.
From Stdlib Require Import Floats.SpecFloat.
From stdpp Require Import base option list strings gmap.

Set Default Proof Using "Type".
Set Warnings "-register-all".
Local Open Scope Z_scope.

(** ** Binary64 arithmetic *)

Module F64.

Definition prec : Z := 53.
Definition emax : Z := 1024.

Definition float : Type := spec_float.

Definition add : float -> float -> float := SFadd prec emax.
Definition sub : float -> float -> float := SFsub prec emax.
Definition mul : float -> float -> float := SFmul prec emax.
Definition div : float -> float -> float := SFdiv prec emax.

(** Python's [<], [<=] and [==] on floats; all three are false as soon
    as one side is a NaN. *)
Definition ltb : float -> float -> bool := SFltb.
Definition leb : float -> float -> bool := SFleb.
Definition eqb : float -> float -> bool := SFeqb.

Definition valid (x : float) : bool := valid_binary prec emax x.

Definition is_zero (x : float) : bool :=
  match x with S754_zero _ => true | _ => false end.

(** The double denoting an integer (exact below 2^53). *)
Definition of_Z (z : Z) : float := binary_normalize prec emax z 0 false.

(** The double denoted by the decimal literal [n / d] where [d] is a
    power of ten: division is correctly rounded and both operands are
    exact, so the quotient is the double nearest to the decimal. *)
Definition dec (n d : Z) : float := div (of_Z n) (of_Z d).

Definition zero : float := S754_zero false.
Definition one : float := Eval vm_compute in of_Z 1.
Definition two : float := Eval vm_compute in of_Z 2.
Definition four : float := Eval vm_compute in of_Z 4.
Definition forty : float := Eval vm_compute in of_Z 40.
Definition fifty : float := Eval vm_compute in of_Z 50.
Definition sixty : float := Eval vm_compute in of_Z 60.
Definition eighty : float := Eval vm_compute in of_Z 80.
Definition hundred : float := Eval vm_compute in of_Z 100.
(** [0.01] and [0.1] *)
Definition cent : float := Eval vm_compute in dec 1 100.
Definition tenth : float := Eval vm_compute in dec 1 10.

End F64.

Abbreviation float := F64.float.

Arguments F64.add : simpl never.
Arguments F64.sub : simpl never.
Arguments F64.mul : simpl never.
Arguments F64.div : simpl never.
Arguments F64.ltb : simpl never.
Arguments F64.leb : simpl never.
Arguments F64.eqb : simpl never.

(** ** Python values, exceptions and builtins *)

Module Py.

(** The exception classes the program can raise by itself, and
    [OtherError] for one of any other class, by its name: what the
    network layer raises besides [aiohttp.ClientError], such as
    [asyncio.TimeoutError]. *)
Inductive exn : Set :=
| ZeroDivisionError
| IndexError
| KeyError
| ValueError
| TypeError
| NameError
| OverflowError
| OtherError (name : string).

(** Outcome of evaluating Python code: a value or a raised exception. *)
Inductive result (A : Type) : Type :=
| Ok (a : A)
| Raise (e : exn).
Arguments Ok {A} a.
Arguments Raise {A} e.

Definition bind {A B} (r : result A) (k : A -> result B) : result B :=
  match r with
  | Ok a => k a
  | Raise e => Raise e
  end.

Definition raises {A} (r : result A) : Prop := exists e, r = Raise e.

(** The values a decoded JSON document or the fetcher puts in an order
    book: [None], a number, a string, a list or tuple.  An int (or a
    bool) stands as the double [float()] makes of it; [VBig] is an int
    beyond the range of the doubles, of which [float()] makes none:
    only its sign is kept. *)
Inductive val : Type :=
| VNone
| VFloat (f : float)
| VBig (negative : bool)
| VStr (s : string)
| VSeq (l : list val).

(** [x / y] on floats: Python raises on a zero divisor (of either sign)
    and otherwise follows IEEE. *)
Definition truediv (x y : float) : result float :=
  if F64.is_zero y then Raise ZeroDivisionError else Ok (F64.div x y).

(** Two-argument [min] and [max]: the first argument is kept unless the
    second one compares strictly smaller (resp. greater). *)
Definition pymin (a b : float) : float := if F64.ltb b a then b else a.
Definition pymax (a b : float) : float := if F64.ltb a b then b else a.

(** The items of a subscriptable value: a string is the sequence of its
    one-character strings. *)
Definition items (v : val) : result (list val) :=
  match v with
  | VSeq l => Ok l
  | VStr s => Ok (List.map (fun c => VStr (String c EmptyString)) (list_ascii_of_string s))
  | VNone | VFloat _ | VBig _ => Raise TypeError
  end.

(** [v[:n]] (as the sequence of its items) and [v[i]]. *)
Definition slice_to (n : nat) (v : val) : result (list val) :=
  bind (items v) (fun l => Ok (take n l)).

Definition nth_item (l : list val) (i : nat) : result val :=
  match l !! i with
  | Some x => Ok x
  | None => Raise IndexError
  end.

Definition index (v : val) (i : nat) : result val :=
  bind (items v) (fun l => nth_item l i).


Section Float.
(** Python's parser of float literals in strings; [None] where
    [float(s)] raises [ValueError]. *)
Variable float_of_string : string -> option float.
(** The loop in which the builtin [sum] accumulates floats once its
    running total is a float: plain addition up to CPython 3.11,
    compensated summation from 3.12 on. *)
Variable float_loop : float -> list float -> float.

(** The builtin [float(v)]. *)
Definition to_float (v : val) : result float :=
  match v with
  | VFloat f => Ok f
  | VBig _ => Raise OverflowError
  | VStr s =>
      match float_of_string s with
      | Some f => Ok f
      | None => Raise ValueError
      end
  | VNone | VSeq _ => Raise TypeError
  end.

(** The generator [float(x[1]) for x in l], consumed left to right:
    the floats it yields, or the exception that stops it. *)
Fixpoint sizes (l : list val) : result (list float) :=
  match l with
  | [] => Ok []
  | x :: l' =>
      bind (index x 1) (fun s =>
      bind (to_float s) (fun f =>
      bind (sizes l') (fun fs =>
      Ok (f :: fs))))
  end.

(** The builtin [sum] on floats, from its default start, the int [0]:
    the first float is added to it, which makes the running total a
    float, and the float loop takes the others. *)
Definition sum_floats (xs : list float) : float :=
  match xs with
  | [] => F64.zero
  | x :: rest =>
      match rest with
      | [] => F64.add F64.zero x
      | _ :: _ => float_loop (F64.add F64.zero x) rest
      end
  end.

(** [sum(float(x[1]) for x in l)] *)
Definition sum_sizes (l : list val) : result float :=
  bind (sizes l) (fun fs => Ok (sum_floats fs)).
End Float.

(** The float loop of [sum] up to CPython 3.11: each float is added to
    the running total. *)
Definition plain_loop (acc : float) (xs : list float) : float :=
  fold_left F64.add xs acc.

End Py.

Import Py.

Notation "'let*' x ':=' c1 'in' c2" := (Py.bind c1 (fun x => c2))
  (at level 10, x name, c1 at level 100, c2 at level 200).

(** ** Scoring engine ([token_depth.py] and [token_jt.py], same text) *)

Module Scoring.

Definition MAX_LIQUIDITY_SCORE : float := F64.hundred.
Definition MAX_RISK_SCORE : float := F64.fifty.
Definition ORDER_BOOK_DEPTH : nat := 10.

(** An order book is a Python dict with string keys; the fetchers
    return [None] instead of a dict on failure. *)
Abbreviation order_book := (gmap string val).

(** [not order_book]: [None] and the empty dict are falsy. *)
Definition falsy (ob : option order_book) : bool :=
  match ob with
  | None => true
  | Some d => bool_decide (d = ∅)
  end.

Definition has_key (k : string) (d : order_book) : bool :=
  bool_decide (is_Some (d !! k)).

(** [d[k]] *)
Definition getitem (d : order_book) (k : string) : result val :=
  match d !! k with
  | Some v => Ok v
  | None => Raise KeyError
  end.

(** The triple [(None, None, None)] that [calculate_depth] returns for
    an order book it recognises as invalid. *)
Definition invalid_depth : option float * option float * option float :=
  (None, None, None).

Inductive advice : Set := WorthBuying | NotRecommended.

Section WithParser.
Variable float_of_string : string -> option float.
Variable float_loop : float -> list float -> float.

Abbreviation to_float := (Py.to_float float_of_string).
Abbreviation sum_sizes := (Py.sum_sizes float_of_string float_loop).

Definition calculate_depth (ob : option order_book)
  : result (option float * option float * option float) :=
  match ob with
  | Some d =>
      if falsy ob || negb (has_key "bids" d) || negb (has_key "asks" d)
      then Ok invalid_depth
      else
        let* vb := getitem d "bids" in
        let* bids := slice_to ORDER_BOOK_DEPTH vb in
        let* va := getitem d "asks" in
        let* asks := slice_to ORDER_BOOK_DEPTH va in
        let* bid_depth := sum_sizes bids in
        let* ask_depth := sum_sizes asks in
        let* a0 := nth_item asks 0 in
        let* a00 := index a0 0 in
        let* fa := to_float a00 in
        let* b0 := nth_item bids 0 in
        let* b00 := index b0 0 in
        let* fb := to_float b00 in
        Ok (Some bid_depth, Some ask_depth, Some (F64.sub fa fb))
  | None => Ok invalid_depth
  end.

Definition evaluate_liquidity (d : order_book) : result float :=
  match d !! "estimatedPriceImpact" with
  | None => Ok F64.zero
  | Some v =>
      let* price_impact := to_float v in
      let* liquidity_score := truediv F64.one (F64.add F64.one price_impact) in
      Ok (pymin (F64.mul liquidity_score F64.hundred) MAX_LIQUIDITY_SCORE)
  end.
End WithParser.

(** The [if]/[elif]/[else] statement of [assess_risk]: [Some r] when a
    branch returns [r], [None] when control falls through to the next
    statement. *)
Definition risk_tiers (price : float) : option (result float) :=
  if F64.ltb price F64.cent then Some (Ok MAX_RISK_SCORE)
  else if F64.ltb price F64.one then Some (truediv MAX_RISK_SCORE F64.two)
  else Some (truediv MAX_RISK_SCORE F64.four).

(** The statement after the chain reads the global [price_history],
    which no module defines: evaluating it raises [NameError]. *)
Definition risk_trailing : result float := Raise NameError.

Definition assess_risk (price : float) : result float :=
  match risk_tiers price with
  | Some r => r
  | None => risk_trailing
  end.

(** The unclamped expression of [standardize_score]. *)
Definition raw_score (liquidity_score risk_score : float) : result float :=
  let* l := truediv liquidity_score MAX_LIQUIDITY_SCORE in
  let* r := truediv risk_score MAX_RISK_SCORE in
  Ok (F64.sub (F64.mul l F64.sixty) (F64.mul r F64.forty)).

Definition standardize_score (liquidity_score risk_score : float) : result float :=
  let* standardized_score := raw_score liquidity_score risk_score in
  Ok (pymax F64.zero (pymin F64.hundred standardized_score)).

(** The closing test of the one-shot driver [main]. *)
Definition verdict (combined_score : float) : advice :=
  if F64.ltb F64.sixty combined_score then WorthBuying else NotRecommended.

End Scoring.

(** ** Continuous monitor ([token_jt.py], [monitor_token]) *)

Module Monitor.
Import Scoring.

Definition CHECK_INTERVAL : Z := 300.
Definition PRICE_HISTORY_LENGTH : nat := 5.
Definition PRICE_INCREASE_THRESHOLD : float := F64.tenth.
Definition LIQUIDITY_THRESHOLD : float := F64.eighty.

(** What one cycle of the detector concludes from the window. *)
Inductive decision : Type :=
| NoSignal
| TrendSignal (price_increase : float).

(** What the loop does to the outside world (the warning that
    [evaluate_liquidity] logs is not recorded). *)
Inductive event : Type :=
| LogFetchFailed
| Email (price_increase current_price liquidity_score : float)
| LogInfo (current_price liquidity_score : float)
| Sleep (seconds : Z).

(** [price_history.append(current_price)] followed by the guarded
    [price_history.pop(0)], for a window of [n] prices. *)
Definition push_price (n : nat) (price_history : list float) (current_price : float)
  : list float :=
  let appended := price_history ++ [current_price] in
  if decide (n < length appended)%nat then drop 1 appended else appended.

(** [all(price_history[i] < price_history[i+1]
         for i in range(len(price_history)-1))]; the subscripts are in
    range by construction, the default is never read. *)
Definition all_increasing (price_history : list float) : bool :=
  forallb
    (fun i => F64.ltb (nth i price_history S754_nan) (nth (i + 1) price_history S754_nan))
    (seq 0 (length price_history - 1)).

(** The test made on a window of [n] prices: nothing happens until the
    history holds exactly [n] prices; then the relative increase between
    the oldest and the newest price is computed and compared. *)
Definition trend_decision (n : nat) (threshold : float) (price_history : list float)
  : result decision :=
  if decide (length price_history = n) then
    match last price_history, head price_history with
    | Some newest, Some oldest =>
        let* price_increase := truediv (F64.sub newest oldest) oldest in
        if F64.ltb threshold price_increase && all_increasing price_history
        then Ok (TrendSignal price_increase)
        else Ok NoSignal
    | _, _ => Raise IndexError
    end
  else Ok NoSignal.

(** A price that is not a float is still appended, and then makes the
    cycle raise: in the subtraction when the window is full, otherwise
    in the [:.8f] format of the log line (which is also where an int
    beyond the doubles fails when it is the whole window). *)
Definition bad_price (n : nat) (price_history : list float) (v : val) : exn :=
  if decide (length (push_price n price_history F64.zero) = n) then
    match n, v with
    | O, _ => IndexError
    | _, VBig _ => OverflowError
    | _, _ => TypeError
    end
  else
    match v with
    | VStr _ => ValueError
    | VBig _ => OverflowError
    | _ => TypeError
    end.

Section WithParser.
Variable float_of_string : string -> option float.

(** One iteration of the [while True] body on the value the awaited
    fetch evaluated to: the new history and the events, or the
    exception that leaves the loop. *)
Definition monitor_cycle (fetched : option order_book) (price_history : list float)
  : result (list float * list event) :=
  match fetched with
  | Some d =>
      if falsy fetched
      then Ok (price_history, [LogFetchFailed; Sleep CHECK_INTERVAL])
      else
        let* current := getitem d "price" in
        let* liquidity_score := evaluate_liquidity float_of_string d in
        match current with
        | VFloat current_price =>
            let history := push_price PRICE_HISTORY_LENGTH price_history current_price in
            let* trend := trend_decision PRICE_HISTORY_LENGTH PRICE_INCREASE_THRESHOLD history in
            let alerts :=
              match trend with
              | TrendSignal price_increase =>
                  if F64.leb LIQUIDITY_THRESHOLD liquidity_score
                  then [Email price_increase current_price liquidity_score]
                  else []
              | NoSignal => []
              end in
            Ok (history, alerts ++ [LogInfo current_price liquidity_score; Sleep CHECK_INTERVAL])
        | _ => Raise (bad_price PRICE_HISTORY_LENGTH price_history current)
        end
  | None => Ok (price_history, [LogFetchFailed; Sleep CHECK_INTERVAL])
  end.

(** How a run over a finite prefix of the feed stands at its end. *)
Inductive outcome : Type :=
| Running (price_history : list float)
| Crashed (e : exn).

(** The [while True] loop over what the successive
    [await fetch_order_book_eth(...)] evaluate to: the value returned,
    or the exception raised, which nothing around the call catches. *)
Fixpoint monitor_loop (feed : list (result (option order_book))) (price_history : list float)
  : list event * outcome :=
  match feed with
  | [] => ([], Running price_history)
  | awaited :: feed' =>
      match (let* fetched := awaited in monitor_cycle fetched price_history) with
      | Ok (history, events) =>
          let (later, out) := monitor_loop feed' history in
          (events ++ later, out)
      | Raise e => ([], Crashed e)
      end
  end.

(** [monitor_token] starts from [price_history = []]. *)
Definition monitor_token (feed : list (result (option order_book))) : list event * outcome :=
  monitor_loop feed [].
End WithParser.

End Monitor.

(** ** The fetchers ([token_depth.py] and [token_jt.py], same text) *)

Module Fetch.
Import Scoring.

(** A decoded JSON document: an object, that is a dict, or anything
    else (a list, a string, a number, [null]), of which the code below
    only ever uses the truth value. *)
Inductive json : Type :=
| JObject (data : order_book)
| JOther (truthy : bool).

(** What the network hands to a fetcher: [session.get] or
    [response.json()] raising an [aiohttp.ClientError] or an exception
    of another class (such as [asyncio.TimeoutError]), or a response
    with its status code and what [response.json()] decodes its body
    to. *)
Inductive http : Type :=
| ClientError
| OtherException (e : exn)
| Response (status : Z) (data : json).

(** [1e18] and [1e6], both exact doubles. *)
Definition e18 : float := Eval vm_compute in F64.of_Z (10 ^ 18).
Definition e6 : float := Eval vm_compute in F64.of_Z (10 ^ 6).

(** Only [aiohttp.ClientError] is caught; the body is returned as it
    is decoded. *)
Definition fetch_order_book_btc (resp : http) : result (option json) :=
  match resp with
  | ClientError => Ok None
  | OtherException e => Raise e
  | Response status data => if decide (status = 200) then Ok (Some data) else Ok None
  end.

Section WithStrings.
Variable float_of_string : string -> option float.
(** The builtin [str] on floats. *)
Variable str_of_float : float -> string.

(** The dict that [fetch_order_book_eth] returns. *)
Definition eth_book (sell_amount buy_amount price : float) (impact : val) : order_book :=
  <[ "bids" := VSeq [VSeq [VStr "0"; VStr (str_of_float sell_amount)]] ]>
  (<[ "asks" := VSeq [VSeq [VStr "0"; VStr (str_of_float buy_amount)]] ]>
  (<[ "price" := VFloat price ]>
  (<[ "estimatedPriceImpact" := impact ]> ∅))).

(** The statements of the [try] block on a decoded object. *)
Definition eth_parse (data : order_book) : result (option order_book) :=
  match data !! "sellAmount" with
  | None => Ok None
  | Some vs =>
      let* s := Py.to_float float_of_string vs in
      let* sell_amount := truediv s e18 in
      match data !! "buyAmount" with
      | None => Ok None
      | Some vb =>
          let* b := Py.to_float float_of_string vb in
          let* buy_amount := truediv b e6 in
          let* price := truediv buy_amount sell_amount in
          Ok (Some (eth_book sell_amount buy_amount price
                      (default (VStr "0") (data !! "estimatedPriceImpact"))))
      end
  end.

(** The [try] block catches [aiohttp.ClientError] and [KeyError],
    wherever in it they are raised; what [float()] and the divisions
    raise leaves the function, and so do the subscript of a body that is
    no object ([TypeError]) and the other exceptions of the request. *)
Definition fetch_order_book_eth (resp : http) : result (option order_book) :=
  match resp with
  | ClientError => Ok None
  | OtherException KeyError => Ok None
  | OtherException e => Raise e
  | Response status data =>
      if decide (status = 200) then
        match data with
        | JObject data => eth_parse data
        | JOther _ => Raise TypeError
        end
      else Ok None
  end.
End WithStrings.

End Fetch.

(** ** One-shot driver ([token_depth.py], [main]) *)

Module OneShot.
Import Scoring Fetch.

(** What [main] writes, the menu and the prompts left out: [Scores]
    is the four lines of the scores and the price, [ScoresOnly] the
    first three of them. *)
Inductive line : Type :=
| NftInfo
| NftUnavailable
| LogInvalidChoice
| LogNoOrderBook
| Scores (combined_score liquidity_score risk_assessment price : float)
| ScoresOnly (combined_score liquidity_score risk_assessment : float)
| Advice (a : advice).

(** How [main] ends. [UnboundLocalError] is the error of reading the
    local [order_book] before any assignment to it. *)
Inductive exit : Type :=
| Returned
| Raised (e : exn)
| UnboundLocalError.

(** The local variable [order_book] of [main]: no assignment has been
    executed yet, or it holds what a fetcher returned. *)
Inductive local : Type :=
| Unbound
| Bound (order_book : option json).

(** How the [if]/[elif] chain of [main] ends: with the [return] of its
    last branch, or going on to the statements after it. *)
Inductive chain : Type :=
| Leaves
| GoesOn (printed : list line) (order_book : local).

Section WithStrings.
Variable float_of_string : string -> option float.
Variable str_of_float : float -> string.

(** [assess_risk] on the price of the order book, with the double
    that the [:.6f] format of the price line prints.  The comparisons
    with [0.01] and [1] raise [TypeError] for anything but a number; an
    int beyond the doubles compares by its sign, and has no double to
    print. *)
Definition risk_of (price : val) : result (float * option float) :=
  match price with
  | VFloat p =>
      let* risk_assessment := assess_risk p in
      Ok (risk_assessment, Some p)
  | VBig negative =>
      let* risk_assessment :=
        (if negative then Ok MAX_RISK_SCORE else truediv MAX_RISK_SCORE F64.four) in
      Ok (risk_assessment, None)
  | VNone | VStr _ | VSeq _ => Raise TypeError
  end.

(** The three scores [main] prints, in the order it computes them, and
    the price it prints after them. *)
Definition scores (d : order_book) : result (float * float * float * option float) :=
  let* liquidity_score := evaluate_liquidity float_of_string d in
  let* price := getitem d "price" in
  let* risk := risk_of price in
  let (risk_assessment, printed) := risk in
  let* combined_score := standardize_score liquidity_score risk_assessment in
  Ok (combined_score, liquidity_score, risk_assessment, printed).

(** [main] from [if not order_book:] on the value bound to the local
    [order_book].  The scoring functions subscript it or test a key in
    it, which raises [TypeError] when it is no dict. *)
Definition report (order_book : option json) : list line * exit :=
  match order_book with
  | Some (JObject d) =>
      if falsy (Some d) then ([LogNoOrderBook], Returned)
      else
        match scores d with
        | Ok (combined_score, l, r, Some p) =>
            ([Scores combined_score l r p; Advice (verdict combined_score)], Returned)
        | Ok (combined_score, l, r, None) =>
            ([ScoresOnly combined_score l r], Raised OverflowError)
        | Raise e => ([], Raised e)
        end
  | Some (JOther truthy) =>
      if truthy then ([], Raised TypeError) else ([LogNoOrderBook], Returned)
  | None => ([LogNoOrderBook], Returned)
  end.

(** The [if]/[elif] chain of [main] on the choice typed in, the answer
    of the network to the one request made, and, for choice 3, how the
    call of [fetch_nft_info] ended: raising, or returning a dict
    ([true]) or [None] ([false]).  A branch that goes on gives what it
    has printed and the state of the local [order_book]; the last
    branch returns. *)
Definition choose (choice : string) (resp : http) (nft : result bool) : result chain :=
  if decide (choice = "1") then
    let* order_book := fetch_order_book_btc resp in
    Ok (GoesOn [] (Bound order_book))
  else if decide (choice = "2") then
    let* order_book := fetch_order_book_eth float_of_string str_of_float resp in
    Ok (GoesOn [] (Bound (JObject <$> order_book)))
  else if decide (choice = "3") then
    let* nft_info := nft in
    Ok (GoesOn [if nft_info then NftInfo else NftUnavailable] Unbound)
  else Ok Leaves.

(** [main]: the chain, then the common part, which starts by reading
    the local [order_book]. *)
Definition main (choice : string) (resp : http) (nft : result bool) : list line * exit :=
  match choose choice resp nft with
  | Ok (GoesOn printed (Bound order_book)) =>
      let (lines, how) := report order_book in (printed ++ lines, how)
  | Ok (GoesOn printed Unbound) => (printed, UnboundLocalError)
  | Ok Leaves => ([LogInvalidChoice], Returned)
  | Raise e => ([], Raised e)
  end.
End WithStrings.

End OneShot.

(** * Specification vocabulary

    Definitions that follow the wording of the specification, and the
    concrete scenarios it names.  Nothing here is used by the program. *)

Module Spec.
Import F64 Scoring Monitor.

(** [25.0] and [12.5], the two lower risk tiers. *)
Definition risk_mid : float := Eval vm_compute in dec 250 10.

Definition risk_low : float := Eval vm_compute in dec 125 10.

(** The score the code computes from a price impact [x]. *)
Definition impact_score (x : float) : float :=
  pymin (mul (div one (add one x)) hundred) MAX_LIQUIDITY_SCORE.

(** An order book with nothing but a price impact. *)
Definition impact_book (x : float) : order_book :=
  {[ "estimatedPriceImpact" := VFloat x ]}.

(** An order book whose price impact is a positive int beyond the
    doubles, such as [10 ** 400]. *)
Definition huge_impact : order_book :=
  {[ "estimatedPriceImpact" := VBig false ]}.

(** Following the spec's wording: [clamp(lo, hi, x)] is [x] when it
    lies strictly between the bounds, [lo] when it is not above [lo],
    and [hi] when it is not below [hi]. *)
Definition clamp (lo hi x : float) : float :=
  if ltb x hi then (if ltb lo x then x else lo) else hi.

(** Following the spec's wording: [history[i] < history[i+1]] for all
    consecutive pairs. *)
Definition pairs_increasing (history : list float) : Prop :=
  forall i a b, history !! i = Some a -> history !! S i = Some b -> ltb a b = true.

(** The prices of the two scenarios of the spec. *)
Definition rising : list float :=
  [dec 100 100; dec 102 100; dec 105 100; dec 109 100; dec 115 100].

Definition zigzag : list float :=
  [dec 10 10; dec 12 10; dec 11 10; dec 13 10; dec 14 10].

(** The double that Python prints as [0.1499999999999999]. *)
Definition rising_increase : float :=
  Eval vm_compute in dec 1499999999999999 10000000000000000.

(** Feeding prices one by one to an empty detector. *)
Definition observe_all (n : nat) (prices : list float) : list float :=
  fold_left (push_price n) prices [].

(** A full window whose oldest price is zero. *)
Definition flat_start : list float :=
  [zero; of_Z 1; of_Z 2; of_Z 3; of_Z 4].

(** An order book as [fetch_order_book_eth] builds it, reduced to the
    two entries the monitor reads. *)
Definition quote (price impact : float) : order_book :=
  {[ "price" := VFloat price; "estimatedPriceImpact" := VFloat impact ]}.




(** A parser that reads ["0"] and ["1"] as Python does, and nothing
    else. *)
Definition demo_parse (s : string) : option float :=
  if decide (s = "0") then Some zero
  else if decide (s = "1") then Some one
  else None.

(** A body of the 0x API with a sell amount of zero. *)
Definition zero_sale : order_book :=
  {[ "sellAmount" := VStr "0"; "buyAmount" := VStr "1" ]}.

(** An order book whose bid side is present but empty. *)
Definition no_bids : order_book :=
  {[ "bids" := VSeq []; "asks" := VSeq [VSeq [VFloat two; VFloat one]] ]}.

End Spec.

(** Bounds on doubles stated on mantissa and exponent, used to follow a
    bound through the roundings of an expression. *)

Module Bounds.
Import F64.

Definition inexact (mrs : shr_record) : Z :=
  if shr_r mrs || shr_s mrs then 1 else 0.

Definition delta (l : location) : Z :=
  match l with loc_Exact => 0 | loc_Inexact _ => 1 end.

(** [b] is [a] shifted right by [k] bits: the mantissa is halved [k]
    times, and nothing is flagged as lost when nothing was. *)
Definition shr_rel (k : Z) (a b : shr_record) : Prop :=
  0 <= shr_m a ->
  shr_m b = shr_m a / 2 ^ k /\
  (inexact a = 0 -> shr_m a mod 2 ^ k = 0 -> inexact b = 0).

(** [x] is at most the positive double [mB * 2 ^ eB]. *)
Definition below (mB eB : Z) (x : float) : Prop :=
  match x with
  | S754_zero _ => True
  | S754_infinity s => s = true
  | S754_nan => False
  | S754_finite true _ _ => True
  | S754_finite false m e => e <= eB /\ Z.pos m <= mB * 2 ^ (eB - e)
  end.

(** [mB * 2 ^ eB] is a finite positive double. *)
Definition bound_ok (mB eB : Z) : Prop :=
  0 < mB < 2 ^ 53 /\ -1074 <= eB <= 971.

(** [x] is a zero, an infinity or a finite number of sign [s]. *)
Definition signed (s : bool) (x : float) : Prop :=
  match x with
  | S754_zero s' | S754_infinity s' | S754_finite s' _ _ => s' = s
  | S754_nan => False
  end.

(** [x] is not negative: a zero, a positive finite number or [+inf]. *)
Definition nonneg (x : float) : Prop :=
  match x with
  | S754_zero _ => True
  | S754_infinity s | S754_finite s _ _ => s = false
  | S754_nan => False
  end.

(** The double 1.0 as a bound. *)
Definition mOne : Z := 2 ^ 52.

Definition eOne : Z := -52.

End Bounds.

(** Further vocabulary: what the properties of the fetchers, the driver
    and the monitor are stated with. *)

Module Vocabulary.
Import F64 Scoring Monitor Spec.

Definition is_nan (x : float) : bool :=
  match x with S754_nan => true | _ => false end.

(** The mantissa of a finite [x] fits in 53 bits. *)
Definition mant_ok (x : float) : Prop :=
  match x with
  | S754_finite _ m _ => Z.pos m < 2 ^ 53
  | _ => True
  end.

(** A position on the line of the doubles that [SFcompare] orders:
    the sign class first, then exponent and mantissa. *)
Definition key (x : float) : option (Z * Z * Z) :=
  match x with
  | S754_nan => None
  | S754_zero _ => Some (0, 0, 0)
  | S754_infinity true => Some (-2, 0, 0)
  | S754_infinity false => Some (2, 0, 0)
  | S754_finite true m e => Some (-1, - e, - Z.pos m)
  | S754_finite false m e => Some (1, e, Z.pos m)
  end.

Definition lexc (k k' : Z * Z * Z) : comparison :=
  let '(a, b, c) := k in
  let '(a', b', c') := k' in
  match a ?= a' with
  | Eq => match b ?= b' with Eq => c ?= c' | o => o end
  | o => o
  end.

(** One level [(price, size)] of an order book, both as numbers. *)
Definition level (ps : float * float) : val :=
  VSeq [VFloat ps.1; VFloat ps.2].

(** [n] levels at one price, of sizes 1, 2, ..., [n], and an order book
    with twelve such bids and eleven such asks. *)
Definition deep_side (price : float) (n : nat) : list (float * float) :=
  (fun i => (price, of_Z (Z.of_nat i))) <$> seq 1 n.

Definition deep_book : order_book :=
  {[ "bids" := VSeq (level <$> deep_side one 12);
     "asks" := VSeq (level <$> deep_side two 11) ]}.

(** The price a cycle appends for what the fetch evaluated to, if it
    appends one. *)
Definition observed_price (awaited : result (option order_book)) : option float :=
  match awaited with
  | Ok (Some d) =>
      if falsy (Some d) then None
      else match d !! "price" with
           | Some (VFloat p) => Some p
           | _ => None
           end
  | _ => None
  end.

Definition observed (feed : list (result (option order_book))) : list float :=
  omap observed_price feed.

(** The ways through the [try] block of [fetch_order_book_eth] on a
    decoded object, each with what it ends in. *)
Inductive parsed (float_of_string : string -> option float)
    (str_of_float : float -> string) (data : order_book)
  : result (option order_book) -> Prop :=
| NoSell :
    data !! "sellAmount" = None -> parsed float_of_string str_of_float data (Ok None)
| BadSell vs e :
    data !! "sellAmount" = Some vs -> Py.to_float float_of_string vs = Raise e ->
    parsed float_of_string str_of_float data (Raise e)
| NoBuy vs s :
    data !! "sellAmount" = Some vs -> Py.to_float float_of_string vs = Ok s ->
    data !! "buyAmount" = None -> parsed float_of_string str_of_float data (Ok None)
| BadBuy vs s vb e :
    data !! "sellAmount" = Some vs -> Py.to_float float_of_string vs = Ok s ->
    data !! "buyAmount" = Some vb -> Py.to_float float_of_string vb = Raise e ->
    parsed float_of_string str_of_float data (Raise e)
| ZeroSell vs s vb b :
    data !! "sellAmount" = Some vs -> Py.to_float float_of_string vs = Ok s ->
    data !! "buyAmount" = Some vb -> Py.to_float float_of_string vb = Ok b ->
    is_zero (div s Fetch.e18) = true ->
    parsed float_of_string str_of_float data (Raise ZeroDivisionError)
| Priced vs s vb b :
    data !! "sellAmount" = Some vs -> Py.to_float float_of_string vs = Ok s ->
    data !! "buyAmount" = Some vb -> Py.to_float float_of_string vb = Ok b ->
    is_zero (div s Fetch.e18) = false ->
    parsed float_of_string str_of_float data
      (Ok (Some (Fetch.eth_book str_of_float (div s Fetch.e18) (div b Fetch.e6)
                   (div (div b Fetch.e6) (div s Fetch.e18))
                   (default (VStr "0") (data !! "estimatedPriceImpact"))))).

(** A body of the 0x API selling one token for one USDC, and one whose
    sell amount is no number and which has no buy amount. *)
Definition demo_body : order_book :=
  {[ "sellAmount" := VFloat Fetch.e18; "buyAmount" := VFloat Fetch.e6 ]}.

Definition bad_body : order_book :=
  {[ "sellAmount" := VStr "abc" ]}.

(** A failed fetch followed by the five rising prices of the spec. *)
Definition rising_feed : list (result (option order_book)) :=
  Ok None :: map (fun p => Ok (Some (quote p zero))) rising.

End Vocabulary.

(** * Properties *)

(** ** Order facts on binary64 values *)

Module F64Facts.
Import F64.

Lemma compare_cont_antisym (p q : positive) (c : comparison) :
  Pos.compare_cont (CompOpp c) q p = CompOpp (Pos.compare_cont c p q).
Proof. symmetry. apply Pos.compare_cont_antisym. Qed.

(** Swapping the operands of a comparison flips its answer. *)
Lemma SFcompare_swap (x y : float) :
  SFcompare y x = option_map CompOpp (SFcompare x y).
Proof.
  destruct x as [sx | sx | | sx mx ex], y as [sy | sy | | sy my ey];
    simpl; try reflexivity;
    try (destruct sx; reflexivity); try (destruct sy; reflexivity);
    try (destruct sx, sy; reflexivity).
  rewrite (Z.compare_antisym ex ey).
  pose proof (compare_cont_antisym mx my Eq) as Hm; simpl in Hm.
  destruct sx, sy; simpl; try reflexivity;
    destruct (ex ?= ey); simpl; try reflexivity;
    rewrite Hm; try reflexivity.
Qed.

Lemma ltb_leb (x y : float) : ltb x y = true -> leb x y = true.
Proof.
  unfold ltb, leb, SFltb, SFleb.
  destruct (SFcompare x y) as [[ | | ] | ]; congruence.
Qed.

Lemma leb_not_ltb (x y : float) : leb x y = true -> ltb y x = false.
Proof.
  unfold ltb, leb, SFltb, SFleb. rewrite (SFcompare_swap x y).
  destruct (SFcompare x y) as [[ | | ] | ]; simpl; congruence.
Qed.

End F64Facts.

(** ** Rounding under a bound *)

Module Rounding.
Import F64 Bounds.

(** The mantissa [p] has exactly [digits2_pos p] bits. *)
Lemma digits2_pos_bounds (p : positive) :
  2 ^ (Z.pos (digits2_pos p) - 1) <= Z.pos p < 2 ^ Z.pos (digits2_pos p).
Proof.
  induction p as [p IH | p IH |]; cbn [digits2_pos].
  - rewrite Pos2Z.inj_succ, Z.pow_succ_r by lia.
    replace (Z.succ (Z.pos (digits2_pos p)) - 1) with (Z.succ (Z.pos (digits2_pos p) - 1)) by lia.
    rewrite Z.pow_succ_r by lia. lia.
  - rewrite Pos2Z.inj_succ, Z.pow_succ_r by lia.
    replace (Z.succ (Z.pos (digits2_pos p)) - 1) with (Z.succ (Z.pos (digits2_pos p) - 1)) by lia.
    rewrite Z.pow_succ_r by lia. lia.
  - simpl. lia.
Qed.

Lemma Zdigits2_le (m k : Z) : 0 <= k -> 0 <= m < 2 ^ k -> Zdigits2 m <= k.
Proof.
  intros Hk [Hm Hlt]. destruct m as [| p | p]; simpl; [lia | | lia].
  destruct (digits2_pos_bounds p) as [Hlo _].
  assert (2 ^ (Z.pos (digits2_pos p) - 1) < 2 ^ k) by lia.
  apply Z.pow_lt_mono_r_iff in H; lia.
Qed.

Lemma fexp_eq (e : Z) : fexp prec emax e = Z.max (e - 53) (-1074).
Proof. reflexivity. Qed.

(** *** Right shifts with sticky bits *)

Lemma delta_loc_of_shr_record (mrs : shr_record) :
  delta (loc_of_shr_record mrs) = inexact mrs.
Proof. destruct mrs as [m [] []]; reflexivity. Qed.

Lemma inexact_shr_record_of_loc (m : Z) (l : location) :
  inexact (shr_record_of_loc m l) = delta l /\ shr_m (shr_record_of_loc m l) = m.
Proof. destruct l as [| []]; split; reflexivity. Qed.

Lemma shr_1_rel (a : shr_record) : shr_rel 1 a (shr_1 a).
Proof.
  destruct a as [m r s]. unfold shr_rel, inexact. simpl shr_m. intros Hm.
  change (2 ^ 1) with 2.
  destruct m as [| [p | p |] | p]; try lia; cbn [shr_1 shr_m shr_r shr_s].
  - split; [reflexivity |]. destruct r, s; simpl; lia.
  - split; [rewrite Pos2Z.inj_xI; apply Z.div_unique with 1; lia |].
    intros _ H. rewrite Pos2Z.inj_xI in H.
    rewrite Z.add_comm, Z.mul_comm, Z.mod_add in H by lia. discriminate.
  - split; [rewrite Pos2Z.inj_xO; apply Z.div_unique with 0; lia |].
    destruct r, s; simpl; lia.
  - split; [reflexivity |]. intros _ H. discriminate.
Qed.

Lemma shr_rel_trans (j k : Z) (a b c : shr_record) :
  0 <= j -> 0 <= k -> shr_rel j a b -> shr_rel k b c -> shr_rel (j + k) a c.
Proof.
  intros Hj Hk Hab Hbc Ha. destruct (Hab Ha) as [Hb Hexb].
  assert (Hpj : 0 < 2 ^ j) by (apply Z.pow_pos_nonneg; lia).
  assert (Hpk : 0 < 2 ^ k) by (apply Z.pow_pos_nonneg; lia).
  assert (Hb0 : 0 <= shr_m b) by (rewrite Hb; apply Z.div_pos; lia).
  destruct (Hbc Hb0) as [Hc Hexc].
  rewrite Z.pow_add_r by lia. split.
  - rewrite Hc, Hb. apply Z.div_div; lia.
  - intros Hia Hmod.
    apply Z.mod_divide in Hmod; [| lia]. destruct Hmod as [t Ht].
    apply Hexc.
    + apply Hexb; [exact Hia |]. rewrite Ht.
      replace (t * (2 ^ j * 2 ^ k)) with (t * 2 ^ k * 2 ^ j) by ring.
      apply Z.mod_mul. lia.
    + rewrite Hb, Ht.
      replace (t * (2 ^ j * 2 ^ k)) with (t * 2 ^ k * 2 ^ j) by ring.
      rewrite Z.div_mul by lia. apply Z.mod_mul. lia.
Qed.

Lemma iter_pos_shr_rel (p : positive) :
  forall a, shr_rel (Z.pos p) a (SpecFloat.iter_pos shr_1 p a).
Proof.
  induction p as [p IH | p IH |]; intros a; cbn [SpecFloat.iter_pos].
  - replace (Z.pos p~1) with (1 + Z.pos p + Z.pos p) by lia.
    eapply shr_rel_trans; [lia | lia | | apply IH].
    eapply shr_rel_trans; [lia | lia | apply shr_1_rel | apply IH].
  - replace (Z.pos p~0) with (Z.pos p + Z.pos p) by lia.
    eapply shr_rel_trans; [lia | lia | apply IH | apply IH].
  - apply shr_1_rel.
Qed.


(** *** Rounding never climbs over a representable bound *)

Lemma pow2_split (a b : Z) : 0 <= a -> 0 <= b -> 2 ^ (a + b) = 2 ^ a * 2 ^ b.
Proof. intros. apply Z.pow_add_r; assumption. Qed.

Lemma pow2_pos (a : Z) : 0 <= a -> 0 < 2 ^ a.
Proof. intros. apply Z.pow_pos_nonneg; lia. Qed.

Lemma shr_fexp_nonneg (m e : Z) (l : location) :
  0 <= m -> 0 <= shr_m (fst (shr_fexp prec emax m e l)).
Proof.
  intros Hm. unfold shr_fexp, shr.
  destruct (inexact_shr_record_of_loc m l) as [_ Hrec].
  destruct (fexp prec emax (Zdigits2 m + e) - e) as [| p | p]; cbn [fst];
    try (rewrite Hrec; exact Hm).
  destruct (iter_pos_shr_rel p (shr_record_of_loc m l)) as [-> _];
    [rewrite Hrec; exact Hm |].
  rewrite Hrec. apply Z.div_pos; [exact Hm | apply pow2_pos; lia].
Qed.

Lemma shr_fexp_le (mB eB m e : Z) (l : location) :
  bound_ok mB eB -> 0 <= m -> e <= eB ->
  m + delta l <= mB * 2 ^ (eB - e) ->
  snd (shr_fexp prec emax m e l) <= eB /\
  shr_m (fst (shr_fexp prec emax m e l)) + inexact (fst (shr_fexp prec emax m e l))
    <= mB * 2 ^ (eB - snd (shr_fexp prec emax m e l)).
Proof.
  intros [[HmB0 HmB] [HeB0 HeB]] Hm He Hle.
  assert (Hd : 0 <= delta l <= 1) by (destruct l; simpl; lia).
  assert (Hdig : Zdigits2 m + e <= 53 + eB).
  { assert (Zdigits2 m <= 53 + eB - e); [| lia].
    apply Zdigits2_le; [lia |]. split; [exact Hm |].
    replace (53 + eB - e) with (53 + (eB - e)) by lia.
    rewrite pow2_split by lia.
    pose proof (pow2_pos (eB - e)). nia. }
  unfold shr_fexp, shr.
  destruct (inexact_shr_record_of_loc m l) as [Hin Hrec].
  pose proof (fexp_eq (Zdigits2 m + e)) as Hf.
  destruct (fexp prec emax (Zdigits2 m + e) - e) as [| p | p] eqn:Hn;
    cbn [fst snd]; try (rewrite Hin, Hrec; split; [exact He | exact Hle]).
  assert (Hp : e + Z.pos p <= eB) by lia.
  split; [exact Hp |].
  destruct (iter_pos_shr_rel p (shr_record_of_loc m l)) as [Hq Hex];
    [rewrite Hrec; exact Hm |].
  rewrite Hrec, Hin in *. rewrite Hq.
  set (K := mB * 2 ^ (eB - (e + Z.pos p))).
  assert (HK : mB * 2 ^ (eB - e) = 2 ^ Z.pos p * K).
  { unfold K. replace (eB - e) with (Z.pos p + (eB - (e + Z.pos p))) by lia.
    rewrite pow2_split by lia. ring. }
  rewrite HK in Hle.
  assert (H2p : 0 < 2 ^ Z.pos p) by (apply pow2_pos; lia).
  set (r := SpecFloat.iter_pos shr_1 p (shr_record_of_loc m l)) in *.
  assert (Hr : inexact r = 0 \/ inexact r = 1)
    by (unfold inexact; destruct (shr_r r || shr_s r); lia).
  destruct Hr as [-> | Hr1].
  - rewrite Z.add_0_r. apply Z.div_le_upper_bound; lia.
  - rewrite Hr1.
    assert (m < 2 ^ Z.pos p * K).
    { destruct (Z.eq_dec m (2 ^ Z.pos p * K)) as [Heq | Hne]; [| lia].
      exfalso. assert (inexact r = 0); [| lia].
      apply Hex; [lia |]. rewrite Heq, Z.mul_comm. apply Z.mod_mul. lia. }
    assert (m / 2 ^ Z.pos p < K) by (apply Z.div_lt_upper_bound; lia).
    lia.
Qed.

Lemma round_nearest_even_bounds (m : Z) (l : location) :
  m <= round_nearest_even m l <= m + delta l.
Proof.
  destruct l as [| []]; simpl; try lia. destruct (Z.even m); lia.
Qed.

Lemma binary_round_aux_signed (s : bool) (mx ex : Z) (lx : location) :
  0 <= mx -> signed s (binary_round_aux prec emax s mx ex lx).
Proof.
  intros Hm. unfold binary_round_aux.
  pose proof (shr_fexp_nonneg mx ex lx Hm) as H1.
  destruct (shr_fexp prec emax mx ex lx) as [mrs1 e1]. cbn [fst] in H1.
  pose proof (round_nearest_even_bounds (shr_m mrs1) (loc_of_shr_record mrs1)) as Hr.
  set (m1 := round_nearest_even (shr_m mrs1) (loc_of_shr_record mrs1)) in *.
  assert (Hm1 : 0 <= m1) by lia.
  pose proof (shr_fexp_nonneg m1 e1 loc_Exact Hm1) as H2.
  destruct (shr_fexp prec emax m1 e1 loc_Exact) as [mrs2 e2]. cbn [fst] in H2.
  destruct (shr_m mrs2) as [| m | m]; [reflexivity | | lia].
  destruct (e2 <=? emax - prec); reflexivity.
Qed.

Lemma binary_round_aux_le (mB eB mx ex : Z) (lx : location) :
  bound_ok mB eB -> 0 <= mx -> ex <= eB ->
  mx + delta lx <= mB * 2 ^ (eB - ex) ->
  below mB eB (binary_round_aux prec emax false mx ex lx).
Proof.
  intros Hok Hm He Hle. unfold binary_round_aux.
  pose proof (shr_fexp_nonneg mx ex lx Hm) as H1.
  destruct (shr_fexp_le mB eB mx ex lx Hok Hm He Hle) as [He1 Hle1].
  destruct (shr_fexp prec emax mx ex lx) as [mrs1 e1]. cbn [fst snd] in *.
  pose proof (round_nearest_even_bounds (shr_m mrs1) (loc_of_shr_record mrs1)) as Hr.
  rewrite delta_loc_of_shr_record in Hr.
  set (m1 := round_nearest_even (shr_m mrs1) (loc_of_shr_record mrs1)) in *.
  assert (Hm1 : 0 <= m1) by lia.
  pose proof (shr_fexp_nonneg m1 e1 loc_Exact Hm1) as H2.
  destruct (shr_fexp_le mB eB m1 e1 loc_Exact Hok Hm1 He1) as [He2 Hle2];
    [simpl; lia |].
  destruct (shr_fexp prec emax m1 e1 loc_Exact) as [mrs2 e2]. cbn [fst snd] in *.
  assert (Hin : 0 <= inexact mrs2)
    by (unfold inexact; destruct (shr_r mrs2 || shr_s mrs2); lia).
  destruct Hok as [_ [_ HeB]].
  destruct (shr_m mrs2) as [| m | m]; [exact I | | lia].
  replace (e2 <=? emax - prec) with true
    by (symmetry; apply Z.leb_le; unfold emax, prec; lia).
  simpl. split; [exact He2 | lia].
Qed.


(** *** From comparisons to bounds and back *)

Lemma signed_false_nonneg (x : float) : signed false x -> nonneg x.
Proof. destruct x; simpl; auto. Qed.

Lemma signed_true_below (mB eB : Z) (x : float) : signed true x -> below mB eB x.
Proof. destruct x as [| | | s m e]; simpl; auto. intros ->. exact I. Qed.

Lemma leb_zero_nonneg (x : float) : leb zero x = true -> nonneg x.
Proof. destruct x as [s | [] | | [] m e]; simpl; try discriminate; auto. Qed.

Lemma valid_mantissa (s : bool) (m : positive) (e : Z) :
  valid (S754_finite s m e) = true -> Z.pos m < 2 ^ 53.
Proof.
  unfold valid, valid_binary, bounded, canonical_mantissa.
  intros H. apply andb_prop in H as [H _]. apply Z.eqb_eq in H.
  rewrite fexp_eq in H.
  destruct (digits2_pos_bounds m) as [_ Hm].
  assert (Z.pos (digits2_pos m) <= 53) by lia.
  assert (2 ^ Z.pos (digits2_pos m) <= 2 ^ 53) by (apply Z.pow_le_mono_r; lia).
  lia.
Qed.

Lemma compare_cont_Eq_le (m p : positive) :
  Pos.compare_cont Eq m p <> Gt -> (Z.pos m <= Z.pos p).
Proof. intros H. change (m <= p)%positive in H. lia. Qed.

Lemma leb_below (x : float) (pB : positive) (eB : Z) :
  valid x = true -> 2 ^ 52 <= Z.pos pB ->
  leb x (S754_finite false pB eB) = true -> below (Z.pos pB) eB x.
Proof.
  intros Hv HpB. destruct x as [s | [] | | [] m e]; simpl; try discriminate; auto.
  apply valid_mantissa in Hv. unfold leb, SFleb. simpl.
  destruct (e ?= eB) eqn:He.
  - apply Z.compare_eq in He. subst e. intros H.
    rewrite Z.sub_diag, Z.pow_0_r, Z.mul_1_r. split; [lia |].
    apply compare_cont_Eq_le. destruct (Pos.compare_cont Eq m pB); congruence.
  - intros _. rewrite Z.compare_lt_iff in He. split; [lia |].
    assert (2 ^ 1 <= 2 ^ (eB - e)) by (apply Z.pow_le_mono_r; lia).
    change (2 ^ 1) with 2 in *. nia.
  - discriminate.
Qed.

Lemma below_leb (x : float) (pB : positive) (eB : Z) :
  below (Z.pos pB) eB x -> leb x (S754_finite false pB eB) = true.
Proof.
  destruct x as [s | s | | [] m e]; simpl; try tauto; try reflexivity.
  - intros ->. reflexivity.
  - intros [He Hm]. unfold leb, SFleb. simpl.
    destruct (e ?= eB) eqn:Hc.
    + apply Z.compare_eq in Hc. subst e.
      rewrite Z.sub_diag, Z.pow_0_r, Z.mul_1_r in Hm.
      change (Pos.compare_cont Eq m pB) with (m ?= pB)%positive.
      destruct (m ?= pB)%positive eqn:Hmp; try reflexivity.
      apply Pos.compare_gt_iff in Hmp. lia.
    + reflexivity.
    + rewrite Z.compare_gt_iff in Hc. lia.
Qed.

Lemma below_ltb (x : float) (mB eB : Z) (pC : positive) (eC : Z) :
  below mB eB x -> eB < eC -> ltb x (S754_finite false pC eC) = true.
Proof.
  destruct x as [s | s | | [] m e]; simpl; try tauto; try reflexivity.
  - intros -> _. reflexivity.
  - intros [He _] Hlt. unfold ltb, SFltb. simpl.
    replace (e ?= eC) with Lt by (symmetry; apply Z.compare_lt_iff; lia).
    reflexivity.
Qed.


(** *** Multiplication, division and subtraction under a bound *)

Lemma bound_ok_one : bound_ok mOne eOne.
Proof. unfold bound_ok, mOne, eOne. lia. Qed.

Lemma mul_nonneg (a : float) (pc : positive) (ec : Z) :
  nonneg a -> nonneg (mul a (S754_finite false pc ec)).
Proof.
  destruct a as [s | s | | s m e]; simpl; try tauto.
  - intros ->. reflexivity.
  - intros ->. apply signed_false_nonneg.
    unfold mul, SFmul. simpl xorb. apply binary_round_aux_signed. lia.
Qed.

(** A factor at most 1 keeps the product at most the other factor. *)
Lemma mul_below (a : float) (pc : positive) (ec : Z) :
  bound_ok (Z.pos pc) ec -> nonneg a -> below mOne eOne a ->
  below (Z.pos pc) ec (mul a (S754_finite false pc ec)).
Proof.
  intros Hok. destruct a as [s | s | | s m e]; simpl; try tauto.
  - intros -> Ht. discriminate.
  - intros -> [He Hm]. unfold mul, SFmul. simpl xorb.
    unfold mOne, eOne in *.
    apply binary_round_aux_le; [exact Hok | lia | lia |].
    simpl delta. rewrite Z.add_0_r, Pos2Z.inj_mul.
    replace (ec - (e + ec)) with (52 + (-52 - e)) by lia.
    rewrite pow2_split by lia.
    assert (0 < 2 ^ (-52 - e)) by (apply pow2_pos; lia). nia.
Qed.

Lemma delta_new_location (n k : Z) :
  delta (new_location n k) = if k =? 0 then 0 else 1.
Proof.
  unfold new_location, new_location_even, new_location_odd.
  destruct (Z.even n), (k =? 0); reflexivity.
Qed.

(** What [SFdiv_core_binary] hands to the rounding: a quotient of the
    mantissas after scaling the dividend. *)
Lemma div_core_spec (m1 : positive) (e1 : Z) (m2 : positive) (e2 : Z) :
  let '(q, e, l) := SFdiv_core_binary prec emax (Z.pos m1) e1 (Z.pos m2) e2 in
  e = Z.min (fexp prec emax (Z.pos (digits2_pos m1) + e1 - (Z.pos (digits2_pos m2) + e2)))
            (e1 - e2) /\
  exists r, Z.pos m1 * 2 ^ (e1 - e2 - e) = Z.pos m2 * q + r /\
            0 <= r < Z.pos m2 /\ 0 <= q /\
            delta l = (if r =? 0 then 0 else 1).
Proof.
  unfold SFdiv_core_binary. cbn [Zdigits2].
  set (e := Z.min _ _).
  assert (Hs : 0 <= e1 - e2 - e) by (unfold e; lia).
  set (m' := match e1 - e2 - e with
             | 0 => Z.pos m1
             | Z.pos _ => Z.shiftl (Z.pos m1) (e1 - e2 - e)
             | Z.neg _ => 0
             end).
  assert (Hm' : m' = Z.pos m1 * 2 ^ (e1 - e2 - e)).
  { unfold m'. destruct (e1 - e2 - e) as [| p | p] eqn:E.
    - rewrite Z.pow_0_r. lia.
    - apply Z.shiftl_mul_pow2. lia.
    - lia. }
  pose proof (Z_div_mod m' (Z.pos m2) ltac:(lia)) as Hdiv.
  destruct (Z.div_eucl m' (Z.pos m2)) as [q r].
  split; [reflexivity |]. exists r. destruct Hdiv as [Hdiv Hr].
  split; [lia |]. split; [exact Hr |].
  split; [| apply delta_new_location].
  assert (0 <= m') by (rewrite Hm'; pose proof (pow2_pos _ Hs); nia).
  nia.
Qed.

Lemma div_nonneg (x : float) (pc : positive) (ec : Z) :
  nonneg x -> nonneg (div x (S754_finite false pc ec)).
Proof.
  destruct x as [s | s | | s m e]; simpl; try tauto.
  - intros ->. reflexivity.
  - intros ->. apply signed_false_nonneg. unfold div, SFdiv. simpl xorb.
    pose proof (div_core_spec m e pc ec) as H.
    destruct (SFdiv_core_binary prec emax (Z.pos m) e (Z.pos pc) ec) as [[q e'] l].
    destruct H as (_ & r & _ & _ & Hq & _).
    apply binary_round_aux_signed. exact Hq.
Qed.

(** Dividing something at most [c] by [c] gives at most 1. *)
Lemma div_below (x : float) (pc : positive) (ec : Z) :
  nonneg x -> below (Z.pos pc) ec x ->
  below mOne eOne (div x (S754_finite false pc ec)).
Proof.
  destruct x as [s | s | | s m e]; simpl; try tauto.
  - intros -> Ht. discriminate.
  - intros -> [He Hm]. unfold div, SFdiv. simpl xorb.
    pose proof (div_core_spec m e pc ec) as H.
    destruct (SFdiv_core_binary prec emax (Z.pos m) e (Z.pos pc) ec) as [[q e'] l].
    destruct H as (He' & r & Hq & Hr & Hq0 & Hl).
    destruct (digits2_pos_bounds pc) as [_ Hpc].
    assert (Hdig : Z.pos (digits2_pos m) + e <= Z.pos (digits2_pos pc) + ec).
    { assert (Zdigits2 (Z.pos m) <= Z.pos (digits2_pos pc) + ec - e); [| simpl in *; lia].
      apply Zdigits2_le; [lia |]. split; [lia |].
      replace (Z.pos (digits2_pos pc) + ec - e)
        with (Z.pos (digits2_pos pc) + (ec - e)) by lia.
      rewrite pow2_split by lia.
      pose proof (pow2_pos (ec - e)). nia. }
    rewrite fexp_eq in He'.
    assert (He52 : e' <= -53) by lia.
    unfold mOne, eOne.
    apply binary_round_aux_le; [apply bound_ok_one | exact Hq0 | lia |].
    replace (2 ^ 52 * 2 ^ (-52 - e')) with (2 ^ (- e'))
      by (rewrite <- pow2_split by lia; f_equal; lia).
    assert (Hscale : Z.pos m * 2 ^ (e - ec - e') <= Z.pos pc * 2 ^ (- e')).
    { replace (- e') with ((ec - e) + (e - ec - e')) by lia.
      rewrite pow2_split by lia.
      pose proof (pow2_pos (e - ec - e')). nia. }
    rewrite Hl. destruct (r =? 0) eqn:Hr0.
    + apply Z.eqb_eq in Hr0. nia.
    + apply Z.eqb_neq in Hr0. nia.
Qed.


Lemma iter_xO (m d : positive) : Z.pos (Pos.iter xO m d) = Z.pos m * 2 ^ Z.pos d.
Proof.
  induction d as [| d IH] using Pos.peano_ind.
  - change (Pos.iter xO m 1) with (m~0)%positive. change (2 ^ 1) with 2. lia.
  - rewrite Pos.iter_succ, Pos2Z.inj_xO, IH, Pos2Z.inj_succ, Z.pow_succ_r by lia. ring.
Qed.

Lemma shl_align_spec (mx : positive) (ex ex' : Z) :
  snd (shl_align mx ex ex') = Z.min ex ex' /\
  Z.pos (fst (shl_align mx ex ex')) = Z.pos mx * 2 ^ (ex - Z.min ex ex').
Proof.
  unfold shl_align. destruct (ex' - ex) as [| d | d] eqn:E; cbn [fst snd].
  - replace (Z.min ex ex') with ex by lia. rewrite Z.sub_diag. simpl. lia.
  - replace (Z.min ex ex') with ex by lia. rewrite Z.sub_diag. simpl. lia.
  - replace (Z.min ex ex') with ex' by lia.
    replace (ex - ex') with (Z.pos d) by lia. split; [reflexivity | apply iter_xO].
Qed.

Lemma binary_round_signed (s : bool) (m : positive) (e : Z) :
  signed s (binary_round prec emax s m e).
Proof.
  unfold binary_round.
  destruct (shl_align m e _) as [mz ez]. apply binary_round_aux_signed. lia.
Qed.

Lemma binary_round_below (mB eB : Z) (m : positive) (e : Z) :
  bound_ok mB eB -> e <= eB -> Z.pos m <= mB * 2 ^ (eB - e) ->
  below mB eB (binary_round prec emax false m e).
Proof.
  intros Hok He Hm. unfold binary_round.
  destruct (shl_align_spec m e (fexp prec emax (Z.pos (digits2_pos m) + e))) as [H1 H2].
  destruct (shl_align m e _) as [mz ez]. cbn [fst snd] in *.
  rewrite <- H1 in H2.
  apply binary_round_aux_le; [exact Hok | lia | lia |].
  simpl delta. rewrite Z.add_0_r, H2.
  replace (eB - ez) with ((eB - e) + (e - ez)) by lia.
  rewrite pow2_split by lia.
  assert (0 < 2 ^ (e - ez)) by (apply pow2_pos; lia).
  rewrite Z.mul_assoc. apply Z.mul_le_mono_nonneg_r; lia.
Qed.

(** Taking something non-negative away keeps a bound. *)
Lemma sub_below (mB eB : Z) (b d : float) :
  bound_ok mB eB -> nonneg b -> nonneg d -> below mB eB b ->
  below mB eB (sub b d).
Proof.
  intros Hok.
  destruct b as [sb | sb | | sb mb eb]; simpl; try tauto;
    [ | intros -> _ ?; discriminate | ].
  - intros _. destruct d as [sd | sd | | sd md ed]; simpl; try tauto.
    + intros _ _. destruct sb, sd; exact I.
    + intros -> _. reflexivity.
    + intros -> _. exact I.
  - intros ->. destruct d as [sd | sd | | sd md ed]; simpl; try tauto.
    + intros -> _. reflexivity.
    + intros -> [He Hm]. unfold sub, SFsub. cbn [cond_Zopp].
      set (ez := Z.min eb ed).
      destruct (shl_align_spec mb eb ez) as [_ Hb].
      destruct (shl_align_spec md ed ez) as [_ Hd].
      replace (Z.min eb ez) with ez in Hb by (unfold ez; lia).
      replace (Z.min ed ez) with ez in Hd by (unfold ez; lia).
      rewrite Hb, Hd.
      assert (H2b : 0 < 2 ^ (eb - ez)) by (apply pow2_pos; unfold ez; lia).
      assert (H2d : 0 < 2 ^ (ed - ez)) by (apply pow2_pos; unfold ez; lia).
      destruct (Z.pos mb * 2 ^ (eb - ez) - Z.pos md * 2 ^ (ed - ez)) as [| p | p] eqn:E;
        cbn [binary_normalize].
      * exact I.
      * apply binary_round_below; [exact Hok | unfold ez; lia |].
        replace (eB - ez) with ((eB - eb) + (eb - ez)) by (unfold ez; lia).
        rewrite pow2_split by (unfold ez; lia). nia.
      * apply signed_true_below, binary_round_signed.
Qed.


(** *** Sums that cannot vanish *)

Lemma Zdigits2_ge (m k : Z) : 0 <= k -> 2 ^ k <= m -> k + 1 <= Zdigits2 m.
Proof.
  intros Hk Hm. pose proof (pow2_pos k Hk).
  destruct m as [| p | p]; simpl; try lia.
  destruct (digits2_pos_bounds p) as [_ Hhi].
  assert (2 ^ k < 2 ^ Z.pos (digits2_pos p)) by lia.
  apply Z.pow_lt_mono_r_iff in H0; lia.
Qed.

Lemma Zdigits2_pow (m : Z) : 0 < m -> 2 ^ (Zdigits2 m - 1) <= m.
Proof.
  destruct m as [| p | p]; try lia. intros _. apply digits2_pos_bounds.
Qed.

(** One normalising shift of a mantissa whose value is at least 1
    leaves a mantissa that is still positive, at the exponent of its
    magnitude. *)
Lemma shr_fexp_positive (m e : Z) (l : location) :
  0 < m -> 1 <= Zdigits2 m + e ->
  0 < shr_m (fst (shr_fexp prec emax m e l)) /\
  1 <= Zdigits2 (shr_m (fst (shr_fexp prec emax m e l))) + snd (shr_fexp prec emax m e l).
Proof.
  intros Hm Hd. unfold shr_fexp, shr.
  destruct (inexact_shr_record_of_loc m l) as [_ Hrec].
  pose proof (fexp_eq (Zdigits2 m + e)) as Hf.
  destruct (fexp prec emax (Zdigits2 m + e) - e) as [| p | p] eqn:Hn;
    cbn [fst snd]; try (rewrite Hrec; split; [exact Hm | exact Hd]).
  destruct (iter_pos_shr_rel p (shr_record_of_loc m l)) as [Hq _];
    [rewrite Hrec; lia |].
  rewrite Hq, Hrec.
  assert (Hp : Z.pos p = Zdigits2 m - 53) by lia.
  assert (H2p : 0 < 2 ^ Z.pos p) by (apply pow2_pos; lia).
  assert (Hlow : 2 ^ 52 <= m / 2 ^ Z.pos p).
  { apply Z.div_le_lower_bound; [lia |].
    rewrite <- pow2_split by lia.
    replace (Z.pos p + 52) with (Zdigits2 m - 1) by lia.
    apply Zdigits2_pow. exact Hm. }
  split; [lia |].
  pose proof (Zdigits2_ge (m / 2 ^ Z.pos p) 52 ltac:(lia) Hlow). lia.
Qed.

Lemma Zdigits2_mono (a b : Z) : 0 < a <= b -> Zdigits2 a <= Zdigits2 b.
Proof.
  intros [Ha Hab].
  pose proof (Zdigits2_pow a Ha) as Hlo.
  assert (Hd : 1 <= Zdigits2 a) by (destruct a; simpl in *; lia).
  pose proof (Zdigits2_ge b (Zdigits2 a - 1) ltac:(lia) ltac:(lia)). lia.
Qed.

(** Rounding a value that is at least 1 never yields a zero. *)
Lemma binary_round_aux_nonzero (s : bool) (mx ex : Z) (lx : location) :
  0 < mx -> 1 <= Zdigits2 mx + ex ->
  is_zero (binary_round_aux prec emax s mx ex lx) = false.
Proof.
  intros Hm Hd. unfold binary_round_aux.
  destruct (shr_fexp_positive mx ex lx Hm Hd) as [H1 Hd1].
  destruct (shr_fexp prec emax mx ex lx) as [mrs1 e1]. cbn [fst snd] in *.
  pose proof (round_nearest_even_bounds (shr_m mrs1) (loc_of_shr_record mrs1)) as Hr.
  set (m1 := round_nearest_even (shr_m mrs1) (loc_of_shr_record mrs1)) in *.
  assert (Hm1 : 0 < m1) by lia.
  assert (Hd2 : 1 <= Zdigits2 m1 + e1).
  { pose proof (Zdigits2_mono (shr_m mrs1) m1 ltac:(lia)). lia. }
  destruct (shr_fexp_positive m1 e1 loc_Exact Hm1 Hd2) as [H2 _].
  destruct (shr_fexp prec emax m1 e1 loc_Exact) as [mrs2 e2]. cbn [fst snd] in *.
  destruct (shr_m mrs2) as [| m | m]; [lia | | lia].
  destruct (e2 <=? emax - prec); reflexivity.
Qed.

Lemma binary_round_nonzero (s : bool) (m : positive) (e : Z) :
  1 <= Z.pos (digits2_pos m) + e ->
  is_zero (binary_round prec emax s m e) = false.
Proof.
  intros Hd. unfold binary_round.
  destruct (shl_align_spec m e (fexp prec emax (Z.pos (digits2_pos m) + e))) as [H1 H2].
  destruct (shl_align m e _) as [mz ez]. cbn [fst snd] in *. rewrite <- H1 in H2.
  apply binary_round_aux_nonzero; [lia |].
  assert (He : 0 <= e - ez) by lia.
  pose proof (pow2_pos _ He) as Hp.
  destruct (digits2_pos_bounds m) as [Hlo _].
  assert (Z.pos (digits2_pos m) - 1 + (e - ez) + 1 <= Zdigits2 (Z.pos mz)); [| lia].
  apply Zdigits2_ge; [lia |].
  rewrite pow2_split by lia. rewrite H2. nia.
Qed.

(** [1 + x] is not zero when [x] is not negative. *)
Lemma add_one_nonzero (x : float) : nonneg x -> is_zero (add one x) = false.
Proof.
  destruct x as [s | s | | s m e]; simpl; try tauto; try reflexivity.
  intros ->. unfold add, one, SFadd. cbn [cond_Zopp].
  set (ez := Z.min (-52) e).
  destruct (shl_align_spec 4503599627370496 (-52) ez) as [_ Hb].
  destruct (shl_align_spec m e ez) as [_ Hd].
  replace (Z.min (-52) ez) with ez in Hb by (unfold ez; lia).
  rewrite Hb.
  assert (H2 : 0 < 2 ^ (-52 - ez)) by (apply pow2_pos; unfold ez; lia).
  destruct (Z.pos 4503599627370496 * 2 ^ (-52 - ez) + Z.pos (shl_align m e ez).1)
    as [| p | p] eqn:E; cbn [binary_normalize]; try lia.
  apply binary_round_nonzero.
  assert (52 + (-52 - ez) + 1 <= Zdigits2 (Z.pos p)); [| simpl in *; lia].
  apply Zdigits2_ge; [unfold ez; lia |].
  rewrite pow2_split by (unfold ez; lia). rewrite <- E.
  change (2 ^ 52) with 4503599627370496. lia.
Qed.

End Rounding.

(** ** The scoring functions *)

Module ScoringProps.
Import F64 F64Facts Scoring Spec Bounds Rounding.

Lemma risk_tiers_returns (price : float) : is_Some (risk_tiers price).
Proof.
  unfold risk_tiers.
  destruct (ltb price cent); [eauto |]. destruct (ltb price one); eauto.
Qed.

Lemma assess_risk_cases (price : float) :
  assess_risk price =
    Ok (if ltb price cent then fifty
        else if ltb price one then risk_mid else risk_low).
Proof.
  unfold assess_risk, risk_tiers.
  destruct (ltb price cent); [reflexivity |].
  destruct (ltb price one); reflexivity.
Qed.

(** Anything at or below zero is below one cent. *)
Lemma nonpositive_below_cent (price : float) :
  leb price zero = true -> ltb price cent = true.
Proof.
  destruct price as [s | s | | s m e]; try destruct s; try discriminate; reflexivity.
Qed.

(** C10. [assess_risk] never raises and never falls through to the
    statement after its [if]/[elif]/[else] chain: for every double,
    NaN, zero and negatives included, a branch of the chain returns,
    and the value is 50 when [price < 0.01], 25 when
    [0.01 <= price < 1], and 12.5 in every other case. *)
Theorem assess_risk_total (price : float) :
  risk_tiers price <> None /\
  assess_risk price <> risk_trailing /\
  (assess_risk price = Ok fifty \/
   assess_risk price = Ok risk_mid \/
   assess_risk price = Ok risk_low) /\
  (ltb price cent = true -> assess_risk price = Ok fifty) /\
  (leb cent price = true -> ltb price one = true ->
   assess_risk price = Ok risk_mid) /\
  (ltb price cent = false -> ltb price one = false ->
   assess_risk price = Ok risk_low).
Proof.
  rewrite assess_risk_cases.
  split; [| split; [| split; [| split; [| split]]]].
  - destruct (risk_tiers_returns price) as [r Hr]. congruence.
  - unfold risk_trailing. discriminate.
  - destruct (ltb price cent); [tauto |]. destruct (ltb price one); tauto.
  - intros ->. reflexivity.
  - intros Hge Hlt. rewrite (leb_not_ltb _ _ Hge), Hlt. reflexivity.
  - intros -> ->. reflexivity.
Qed.

Lemma assess_risk_total_witness :
  assess_risk (dec 5 1000) = Ok fifty /\
  assess_risk (dec 5 10) = Ok risk_mid /\
  assess_risk (of_Z 5) = Ok risk_low.
Proof.
  destruct (assess_risk_total (dec 5 1000)) as (_ & _ & _ & H1 & _ & _).
  destruct (assess_risk_total (dec 5 10)) as (_ & _ & _ & _ & H2 & _).
  destruct (assess_risk_total (of_Z 5)) as (_ & _ & _ & _ & _ & H3).
  split; [| split].
  - apply H1. vm_compute. reflexivity.
  - apply H2; vm_compute; reflexivity.
  - apply H3; vm_compute; reflexivity.
Defined.

(** C4, as the code has it. For every price at or below zero
    [assess_risk] returns the top risk score 50; it raises nothing. *)
Theorem assess_risk_nonpositive (price : float) :
  leb price zero = true -> assess_risk price = Ok MAX_RISK_SCORE.
Proof.
  intros H. rewrite assess_risk_cases, (nonpositive_below_cent _ H). reflexivity.
Qed.

Lemma assess_risk_nonpositive_witness :
  assess_risk (of_Z (-3)) = Ok MAX_RISK_SCORE.
Proof. apply assess_risk_nonpositive. vm_compute. reflexivity. Defined.

(** C4 fails as stated: at price 0 (and at -3) a score comes back
    instead of an error. *)
Lemma assess_risk_zero_no_error :
  leb zero zero = true /\ ~ raises (assess_risk zero) /\
  assess_risk zero = Ok fifty /\ assess_risk (of_Z (-3)) = Ok fifty.
Proof.
  split; [reflexivity |]. split; [| split; reflexivity].
  intros [e He]. vm_compute in He. discriminate.
Qed.

(** *** [evaluate_liquidity] *)

Section Liquidity.
Variable float_of_string : string -> option float.

Abbreviation liquidity := (evaluate_liquidity float_of_string).

Lemma evaluate_liquidity_present (d : order_book) (v : val) (x : float) :
  d !! "estimatedPriceImpact" = Some v ->
  to_float float_of_string v = Ok x ->
  liquidity d =
    if is_zero (add one x) then Raise ZeroDivisionError else Ok (impact_score x).
Proof.
  unfold evaluate_liquidity. intros -> Hx. rewrite Hx. cbn [Py.bind].
  unfold truediv. destruct (is_zero (add one x)); reflexivity.
Qed.

(** What [float()] raises, and for which values. *)
Lemma to_float_raises (v : val) (e : exn) :
  to_float float_of_string v = Raise e ->
  match v with
  | VStr _ => e = ValueError
  | VBig _ => e = OverflowError
  | VNone | VSeq _ => e = TypeError
  | VFloat _ => False
  end.
Proof.
  destruct v as [| f | negative | s |]; simpl; try discriminate;
    try (intros [= <-]; reflexivity).
  destruct (float_of_string s); [discriminate | intros [= <-]; reflexivity].
Qed.

(** C5, as the code has it. Without an [estimatedPriceImpact] entry
    the score is 0. With an entry that [float()] turns into [x], of
    whatever sign, the score is [min((1 / (1 + x)) * 100, 100)],
    computed in this order, and the only failure is the
    [ZeroDivisionError] raised when [1 + x] is zero, which does not
    happen for [x >= 0]. With an entry that [float()] does not convert,
    the error of [float()] is the one of the call: [ValueError] for a
    string that is no number, [TypeError] for [None] or a list,
    [OverflowError] for an int beyond the doubles. No other error
    leaves the function. *)
Theorem evaluate_liquidity_cases (d : order_book) :
  (d !! "estimatedPriceImpact" = None -> liquidity d = Ok zero) /\
  (forall v x,
      d !! "estimatedPriceImpact" = Some v ->
      to_float float_of_string v = Ok x ->
      liquidity d =
        if is_zero (add one x) then Raise ZeroDivisionError
        else Ok (impact_score x)) /\
  (forall v x,
      d !! "estimatedPriceImpact" = Some v ->
      to_float float_of_string v = Ok x ->
      leb zero x = true ->
      liquidity d = Ok (impact_score x)) /\
  (forall v e,
      d !! "estimatedPriceImpact" = Some v ->
      to_float float_of_string v = Raise e ->
      liquidity d = Raise e /\
      match v with
      | VStr _ => e = ValueError
      | VBig _ => e = OverflowError
      | VNone | VSeq _ => e = TypeError
      | VFloat _ => False
      end) /\
  (forall e,
      liquidity d = Raise e ->
      exists v,
        d !! "estimatedPriceImpact" = Some v /\
        (to_float float_of_string v = Raise e \/
         exists x, to_float float_of_string v = Ok x /\
                   is_zero (add one x) = true /\ leb zero x = false /\
                   e = ZeroDivisionError)).
Proof.
  split; [| split; [| split; [| split]]].
  - unfold evaluate_liquidity. intros ->. reflexivity.
  - apply evaluate_liquidity_present.
  - intros v x Hv Hx Hpos.
    rewrite (evaluate_liquidity_present d v x Hv Hx).
    rewrite add_one_nonzero by (apply leb_zero_nonneg; exact Hpos).
    reflexivity.
  - intros v e Hv He. split; [| now apply to_float_raises].
    unfold evaluate_liquidity. rewrite Hv, He. reflexivity.
  - intros e. destruct (d !! "estimatedPriceImpact") as [v |] eqn:Hv.
    + destruct (to_float float_of_string v) as [x | e'] eqn:Hx.
      * rewrite (evaluate_liquidity_present d v x Hv Hx).
        destruct (is_zero (add one x)) eqn:Hz; [| discriminate].
        intros [= <-]. exists v. split; [reflexivity |]. right. exists x.
        repeat split; try assumption.
        destruct (leb zero x) eqn:Hpos; [| reflexivity].
        rewrite add_one_nonzero in Hz by (apply leb_zero_nonneg; exact Hpos).
        discriminate.
      * unfold evaluate_liquidity. rewrite Hv, Hx. intros [= <-]. eauto.
    + unfold evaluate_liquidity. rewrite Hv. discriminate.
Qed.
End Liquidity.

Lemma evaluate_liquidity_cases_witness :
  evaluate_liquidity (fun _ => None) ∅ = Ok zero /\
  evaluate_liquidity (fun _ => None) (impact_book (of_Z (-1))) = Raise ZeroDivisionError /\
  evaluate_liquidity (fun _ => None) (impact_book (dec 25 100)) = Ok eighty /\
  (evaluate_liquidity (fun _ => None) huge_impact = Raise OverflowError /\
   OverflowError = OverflowError) /\
  exists v,
    impact_book (of_Z (-1)) !! "estimatedPriceImpact" = Some v /\
    (Py.to_float (fun _ => None) v = Raise ZeroDivisionError \/
     exists x, Py.to_float (fun _ => None) v = Ok x /\
               is_zero (add one x) = true /\ leb zero x = false /\
               ZeroDivisionError = ZeroDivisionError).
Proof.
  split; [| split; [| split; [| split]]].
  - apply (evaluate_liquidity_cases (fun _ => None) ∅). reflexivity.
  - destruct (evaluate_liquidity_cases (fun _ => None) (impact_book (of_Z (-1))))
      as (_ & H & _).
    rewrite (H (VFloat (of_Z (-1))) (of_Z (-1))); vm_compute; reflexivity.
  - destruct (evaluate_liquidity_cases (fun _ => None) (impact_book (dec 25 100)))
      as (_ & _ & H & _).
    rewrite (H (VFloat (dec 25 100)) (dec 25 100)); vm_compute; reflexivity.
  - destruct (evaluate_liquidity_cases (fun _ => None) huge_impact)
      as (_ & _ & _ & H & _).
    apply (H (VBig false) OverflowError); vm_compute; reflexivity.
  - destruct (evaluate_liquidity_cases (fun _ => None) (impact_book (of_Z (-1))))
      as (_ & _ & _ & _ & H).
    apply (H ZeroDivisionError). vm_compute. reflexivity.
Defined.

(** C5 fails as stated, three times. A negative impact is scored, not
    rejected: -0.5 gives 100 and -3 gives -50. The value is not always
    [100 / (1 + impact)]: at impact 2 the code's [(1 / 3) * 100] and
    [100 / 3] are different doubles. And an impact above 0 can fail: a
    positive int beyond the doubles makes [float()] raise
    [OverflowError]. *)
Lemma evaluate_liquidity_negative_impact :
  ltb (dec (-5) 10) zero = true /\
  evaluate_liquidity (fun _ => None) (impact_book (dec (-5) 10)) = Ok hundred /\
  evaluate_liquidity (fun _ => None) (impact_book (of_Z (-3))) = Ok (of_Z (-50)) /\
  (forall r, evaluate_liquidity (fun _ => None) (impact_book (of_Z 2)) = Ok r ->
             eqb r (pymin hundred (div hundred (add one (of_Z 2)))) = false) /\
  evaluate_liquidity (fun _ => None) huge_impact = Raise OverflowError.
Proof.
  split; [reflexivity |]. split; [vm_compute; reflexivity |].
  split; [vm_compute; reflexivity |].
  split; [| vm_compute; reflexivity].
  intros r Hr. vm_compute in Hr. injection Hr as <-. vm_compute. reflexivity.
Qed.

(** *** [standardize_score] *)

(** Both divisors are non-zero constants: the expression never raises. *)
Lemma raw_score_ok (liquidity_score risk_score : float) :
  raw_score liquidity_score risk_score =
    Ok (sub (mul (div liquidity_score hundred) sixty)
            (mul (div risk_score fifty) forty)).
Proof. reflexivity. Qed.

Lemma clamp_in_range (x : float) :
  leb zero (clamp zero hundred x) = true /\ leb (clamp zero hundred x) hundred = true.
Proof.
  unfold clamp.
  destruct (ltb x hundred) eqn:Hhi; [| split; reflexivity].
  destruct (ltb zero x) eqn:Hlo; [| split; reflexivity].
  split; now apply ltb_leb.
Qed.

(** C6. For all doubles whatsoever, [standardize_score] returns
    [clamp(0, 100, (liquidity_score / 100) * 60 - (risk_score / 50) * 40)]
    and never raises; the result lies in [[0, 100]]; and
    [standardize_score(100, 0) == 60], [standardize_score(0, 50) == 0],
    [standardize_score(0, 0) == 0]. *)
Theorem standardize_score_clamp :
  (forall liquidity_score risk_score : float,
      let s := sub (mul (div liquidity_score hundred) sixty)
                   (mul (div risk_score fifty) forty) in
      standardize_score liquidity_score risk_score = Ok (clamp zero hundred s) /\
      leb zero (clamp zero hundred s) = true /\
      leb (clamp zero hundred s) hundred = true) /\
  (exists r, standardize_score hundred zero = Ok r /\ eqb r sixty = true) /\
  (exists r, standardize_score zero fifty = Ok r /\ eqb r zero = true) /\
  (exists r, standardize_score zero zero = Ok r /\ eqb r zero = true).
Proof.
  split; [| split; [| split]].
  2: { exists sixty. split; vm_compute; reflexivity. }
  2: { exists zero. split; vm_compute; reflexivity. }
  2: { exists zero. split; vm_compute; reflexivity. }
  intros l r s. split; [| apply clamp_in_range].
  unfold standardize_score. rewrite raw_score_ok. fold s. simpl.
  f_equal. unfold pymax, pymin, clamp.
  destruct (ltb s hundred); [reflexivity |].
  reflexivity.
Qed.

(** *** Scores in their nominal ranges *)

Lemma bound_ok_sixty : bound_ok 8444249301319680 (-47).
Proof. unfold bound_ok. lia. Qed.

(** With the liquidity in [[0, 100]] the unclamped score is at most 60,
    whatever non-negative risk is subtracted. *)
Lemma raw_score_below_sixty (liquidity_score risk_score : float) :
  valid liquidity_score = true ->
  leb zero liquidity_score = true -> leb liquidity_score hundred = true ->
  leb zero risk_score = true ->
  below 8444249301319680 (-47)
    (sub (mul (div liquidity_score hundred) sixty)
         (mul (div risk_score fifty) forty)).
Proof.
  intros Hv Hl0 Hl100 Hr0.
  apply leb_zero_nonneg in Hl0, Hr0.
  apply (leb_below _ 7036874417766400 (-46) Hv) in Hl100; [| lia].
  apply sub_below.
  - exact bound_ok_sixty.
  - apply (mul_nonneg _ 8444249301319680 (-47)).
    apply (div_nonneg _ 7036874417766400 (-46)). exact Hl0.
  - apply (mul_nonneg _ 5629499534213120 (-47)).
    apply (div_nonneg _ 7036874417766400 (-47)). exact Hr0.
  - apply (mul_below _ 8444249301319680 (-47)).
    + exact bound_ok_sixty.
    + apply (div_nonneg _ 7036874417766400 (-46)). exact Hl0.
    + apply (div_below _ 7036874417766400 (-46)); assumption.
Qed.

(** C9. For a liquidity score in [[0, 100]] and a risk score in
    [[0, 50]], [standardize_score] returns at most 60, so the test
    [combined_score > 60] of the one-shot driver fails and its
    favourable branch is not taken. *)
Theorem nominal_scores_never_favorable (liquidity_score risk_score : float) :
  valid liquidity_score = true -> valid risk_score = true ->
  leb zero liquidity_score = true -> leb liquidity_score hundred = true ->
  leb zero risk_score = true -> leb risk_score fifty = true ->
  exists combined_score,
    standardize_score liquidity_score risk_score = Ok combined_score /\
    leb combined_score sixty = true /\
    ltb sixty combined_score = false /\
    verdict combined_score = NotRecommended.
Proof.
  intros Hvl _ Hl0 Hl100 Hr0 _.
  pose proof (raw_score_below_sixty _ _ Hvl Hl0 Hl100 Hr0) as Hs.
  set (s := sub _ _) in Hs.
  exists (pymax zero (pymin hundred s)).
  split; [reflexivity |].
  assert (Hle : leb (pymax zero (pymin hundred s)) sixty = true).
  { assert (Hlt100 : ltb s hundred = true)
      by (apply (below_ltb s _ _ 7036874417766400 (-46) Hs); lia).
    unfold pymin. rewrite Hlt100. unfold pymax. destruct (ltb zero s); [| reflexivity].
    apply (below_leb s 8444249301319680 (-47)). exact Hs. }
  split; [exact Hle |].
  pose proof (leb_not_ltb _ _ Hle) as Hlt.
  split; [exact Hlt |].
  unfold verdict. rewrite Hlt. reflexivity.
Qed.

Lemma nominal_scores_never_favorable_witness :
  exists combined_score,
    standardize_score hundred zero = Ok combined_score /\
    leb combined_score sixty = true /\
    ltb sixty combined_score = false /\
    verdict combined_score = NotRecommended.
Proof.
  apply (nominal_scores_never_favorable hundred zero); reflexivity.
Defined.

End ScoringProps.

(** ** The trend detector and the monitor loop *)

Module MonitorProps.
Import F64 F64Facts Scoring Monitor Fetch Spec Vocabulary.

Lemma all_increasing_spec (history : list float) :
  all_increasing history = true <-> pairs_increasing history.
Proof.
  unfold all_increasing, pairs_increasing. rewrite forallb_forall. split.
  - intros H i a b Ha Hb.
    assert (Hi : (S i < length history)%nat) by (eapply lookup_lt_Some; eauto).
    specialize (H i). rewrite in_seq in H.
    rewrite Nat.add_1_r, !nth_lookup, Ha, Hb in H. apply H. lia.
  - intros H i Hi. rewrite in_seq in Hi. rewrite Nat.add_1_r, !nth_lookup.
    destruct (lookup_lt_is_Some_2 history i) as [a Ha]; [lia |].
    destruct (lookup_lt_is_Some_2 history (S i)) as [b Hb]; [lia |].
    rewrite Ha, Hb. simpl. eauto.
Qed.

(** C1, as the code has it. On a full window the detector signals
    exactly when every consecutive pair is strictly increasing and the
    relative increase [(newest - oldest) / oldest] is defined and
    strictly above the threshold, and the signal carries that
    increase. For [1.0, 1.02, 1.05, 1.09, 1.15], window 5, threshold
    0.10, it signals with increase [1.15 - 1.0], the double
    0.1499999999999999: less than 1e-15 away from 0.15, yet not
    [== 0.15]. For [1.0, 1.2, 1.1, 1.3, 1.4] it gives no signal
    although the net increase exceeds the threshold. *)
Theorem trend_signal_iff :
  (forall (threshold : float) (history : list float) (p : float),
      trend_decision (length history) threshold history = Ok (TrendSignal p) <->
      pairs_increasing history /\
      exists newest oldest,
        last history = Some newest /\ head history = Some oldest /\
        truediv (sub newest oldest) oldest = Ok p /\
        ltb threshold p = true) /\
  (observe_all 5 rising = rising /\
   trend_decision 5 PRICE_INCREASE_THRESHOLD rising = Ok (TrendSignal rising_increase) /\
   rising_increase = sub (dec 115 100) one /\
   ltb (sub (dec 15 100) rising_increase) (dec 1 1000000000000000) = true /\
   eqb rising_increase (dec 15 100) = false) /\
  (observe_all 5 zigzag = zigzag /\
   trend_decision 5 PRICE_INCREASE_THRESHOLD zigzag = Ok NoSignal /\
   exists gain, truediv (sub (dec 14 10) (dec 10 10)) (dec 10 10) = Ok gain /\
                ltb PRICE_INCREASE_THRESHOLD gain = true).
Proof.
  split; [| split].
  - intros threshold history p. unfold trend_decision.
    rewrite decide_True by reflexivity.
    rewrite <- all_increasing_spec.
    destruct (last history) as [newest |], (head history) as [oldest |];
      try (split; [discriminate | intros (_ & n & o & ? & ? & _); discriminate]).
    destruct (truediv (sub newest oldest) oldest) as [q | e] eqn:Hdiv; cbn [Py.bind].
    + destruct (ltb threshold q) eqn:Hq, (all_increasing history) eqn:Hall; cbn [andb].
      * split.
        -- intros [= <-]. split; [reflexivity |]. exists newest, oldest. auto.
        -- intros (_ & n & o & Hn & Ho & Hd & _).
           injection Hn as <-. injection Ho as <-. congruence.
      * split; [discriminate |]. intros (Hinc & _). discriminate.
      * split; [discriminate |].
        intros (_ & n & o & Hn & Ho & Hd & Hlt).
        injection Hn as <-. injection Ho as <-.
        assert (p = q) as -> by congruence. congruence.
      * split; [discriminate |]. intros (Hinc & _). discriminate.
    + split; [discriminate |].
      intros (_ & n & o & Hn & Ho & Hd & _).
      injection Hn as <-. injection Ho as <-. congruence.
  - repeat split; vm_compute; reflexivity.
  - repeat split; try (vm_compute; reflexivity).
    eexists. split; vm_compute; reflexivity.
Qed.

(** C1 fails as stated: the increase signalled for
    [1.0, 1.02, 1.05, 1.09, 1.15] is not [== 0.15]. *)
Lemma rising_increase_not_0_15 :
  ~ exists p, trend_decision 5 PRICE_INCREASE_THRESHOLD rising = Ok (TrendSignal p) /\
              eqb p (dec 15 100) = true.
Proof.
  intros (p & Hp & He). vm_compute in Hp. injection Hp as <-.
  vm_compute in He. discriminate.
Qed.

(** *** Division by a zero price *)

(** C2, as the code has it. When the window is full and its oldest
    price is zero, the division is not guarded: the detector raises
    [ZeroDivisionError]. *)
Theorem trend_zero_oldest_raises (threshold : float) (history : list float)
    (oldest : float) :
  head history = Some oldest -> is_zero oldest = true ->
  trend_decision (length history) threshold history = Raise ZeroDivisionError.
Proof.
  intros Hhead Hzero. unfold trend_decision.
  rewrite decide_True by reflexivity. rewrite Hhead.
  destruct (last history) as [newest |] eqn:Hlast.
  - unfold truediv. rewrite Hzero. reflexivity.
  - apply last_None in Hlast. subst history. discriminate.
Qed.

Lemma trend_zero_oldest_raises_witness :
  trend_decision 5 PRICE_INCREASE_THRESHOLD flat_start = Raise ZeroDivisionError.
Proof.
  apply (trend_zero_oldest_raises PRICE_INCREASE_THRESHOLD flat_start zero);
    reflexivity.
Defined.

(** C2 fails as stated: with the full window
    [0, 1, 2, 3, 4] the detector does not answer [NoSignal] but
    raises, and the exception ends the monitor loop in its fifth
    cycle. *)
Lemma zero_price_crashes :
  observe_all 5 flat_start = flat_start /\
  head flat_start = Some zero /\
  trend_decision 5 PRICE_INCREASE_THRESHOLD flat_start <> Ok NoSignal /\
  raises (trend_decision 5 PRICE_INCREASE_THRESHOLD flat_start) /\
  snd (monitor_token (fun _ => None) (map (fun p => Ok (Some (quote p zero))) flat_start))
    = Crashed ZeroDivisionError.
Proof.
  split; [reflexivity |]. split; [reflexivity |].
  split; [vm_compute; discriminate |].
  split; [exists ZeroDivisionError; vm_compute; reflexivity |].
  vm_compute. reflexivity.
Qed.

(** *** The bounded history *)

Lemma push_price_full (n : nat) (history : list float) (price : float) :
  (n <= length history)%nat ->
  push_price n history price = drop 1 (history ++ [price]).
Proof.
  intros H. unfold push_price. rewrite length_app. simpl.
  rewrite decide_True by lia. reflexivity.
Qed.

Lemma push_price_room (n : nat) (history : list float) (price : float) :
  (length history < n)%nat -> push_price n history price = history ++ [price].
Proof.
  intros H. unfold push_price. rewrite length_app. simpl.
  rewrite decide_False by lia. reflexivity.
Qed.


(** After any sequence of observations the history is the last [n]
    prices observed, in the order they came. *)
Lemma observe_all_last (n : nat) (prices : list float) :
  observe_all n prices = drop (length prices - n) prices.
Proof.
  unfold observe_all.
  induction prices as [| price prices IH] using rev_ind; [reflexivity |].
  rewrite fold_left_app. simpl. rewrite IH, length_app. simpl.
  destruct (decide (n <= length prices)%nat) as [Hfull | Hroom].
  - rewrite push_price_full by (rewrite length_drop; lia).
    destruct (decide (n = 0)%nat) as [-> | Hn].
    + rewrite !drop_ge; [reflexivity | rewrite length_app; simpl; lia |].
      rewrite length_app, length_drop. simpl. lia.
    + rewrite (drop_app_le prices) by lia.
      rewrite drop_app_le by (rewrite length_drop; lia).
      rewrite drop_drop. do 2 f_equal. lia.
  - rewrite push_price_room by (rewrite length_drop; lia).
    replace (length prices - n)%nat with 0%nat by lia.
    replace (length prices + 1 - n)%nat with 0%nat by lia.
    reflexivity.
Qed.

Section Loop.
Variable float_of_string : string -> option float.

Abbreviation cycle := (monitor_cycle float_of_string).
Abbreviation loop := (monitor_loop float_of_string).

(** What a cycle that did not raise has done. *)
Lemma monitor_cycle_inv (fetched : option order_book) (history history' : list float)
    (events : list event) :
  cycle fetched history = Ok (history', events) ->
  (observed_price (Ok fetched) = None /\ history' = history /\
   events = [LogFetchFailed; Sleep CHECK_INTERVAL]) \/
  (exists d p l trend,
     fetched = Some d /\ observed_price (Ok fetched) = Some p /\
     evaluate_liquidity float_of_string d = Ok l /\
     history' = push_price PRICE_HISTORY_LENGTH history p /\
     trend_decision PRICE_HISTORY_LENGTH PRICE_INCREASE_THRESHOLD history' = Ok trend /\
     events = match trend with
              | TrendSignal q =>
                  if leb LIQUIDITY_THRESHOLD l then [Email q p l] else []
              | NoSignal => []
              end ++ [LogInfo p l; Sleep CHECK_INTERVAL]).
Proof.
  unfold monitor_cycle, observed_price.
  destruct fetched as [d |]; [| intros [= <- <-]; auto].
  destruct (falsy (Some d)); [intros [= <- <-]; auto |].
  unfold getitem. destruct (d !! "price") as [v |]; cbn [Py.bind]; [| discriminate].
  destruct (evaluate_liquidity float_of_string d) as [l | e] eqn:Hl; cbn [Py.bind];
    [| discriminate].
  destruct v as [| p | | |]; try discriminate.
  destruct (trend_decision _ _ _) as [t | e] eqn:Ht; cbn [Py.bind]; [| discriminate].
  intros [= <- <-]. right. exists d, p, l, t. auto 10.
Qed.



(** The loop runs a cycle on what the fetch returned; a fetch that
    raised ends it. *)
Lemma monitor_loop_cons (awaited : result (option order_book))
    (feed : list (result (option order_book))) (history : list float) :
  loop (awaited :: feed) history
  = match awaited with
    | Ok fetched =>
        match cycle fetched history with
        | Ok (h, events) => let (later, out) := loop feed h in (events ++ later, out)
        | Raise e => ([], Crashed e)
        end
    | Raise e => ([], Crashed e)
    end.
Proof. destruct awaited; reflexivity. Qed.


Lemma observed_cons (awaited : result (option order_book))
    (feed : list (result (option order_book))) :
  observed (awaited :: feed)
  = match observed_price awaited with
    | Some p => p :: observed feed
    | None => observed feed
    end.
Proof. reflexivity. Qed.

(** The history of a run still going is what pushing the observed
    prices, one after the other, makes of the initial one. *)
Lemma monitor_loop_history (feed : list (result (option order_book))) :
  forall history final,
    snd (loop feed history) = Running final ->
    final = fold_left (push_price PRICE_HISTORY_LENGTH) (observed feed) history.
Proof.
  induction feed as [| awaited feed IH]; intros history final.
  - intros [= <-]. reflexivity.
  - rewrite monitor_loop_cons. destruct awaited as [fetched | e]; [| discriminate].
    destruct (cycle fetched history) as [[h events] | e] eqn:Hc; [| discriminate].
    destruct (loop feed h) as [later out] eqn:Hl. cbn [snd]. intros ->.
    specialize (IH h final). rewrite Hl in IH. specialize (IH eq_refl).
    apply monitor_cycle_inv in Hc
      as [(Hobs & -> & _) | (d & p & l & t & _ & Hobs & _ & -> & _)];
      rewrite observed_cons, Hobs; exact IH.
Qed.
End Loop.



(** *** Failed fetches *)

(** A cycle whose fetch returned [None] (an empty dict is treated
    alike) raises nothing and leaves the price history as it was: it
    logs the failure, sleeps for the interval, and the loop carries on
    with the next fetch from the very same history. *)
Lemma failed_fetch_skips_cycle :
  forall float_of_string (fetched : option order_book) (history : list float)
         (feed : list (result (option order_book))),
    falsy fetched = true ->
    monitor_cycle float_of_string fetched history
      = Ok (history, [LogFetchFailed; Sleep CHECK_INTERVAL]) /\
    monitor_loop float_of_string (Ok fetched :: feed) history
      = (LogFetchFailed :: Sleep CHECK_INTERVAL
           :: fst (monitor_loop float_of_string feed history),
         snd (monitor_loop float_of_string feed history)).
Proof.
  intros fos fetched history feed Hfail.
  assert (Hc : monitor_cycle fos fetched history
               = Ok (history, [LogFetchFailed; Sleep CHECK_INTERVAL])).
  { unfold monitor_cycle. destruct fetched as [d |]; [| reflexivity].
    rewrite Hfail. reflexivity. }
  split; [exact Hc |].
  rewrite monitor_loop_cons, Hc.
  destruct (monitor_loop fos feed history). reflexivity.
Qed.

(** The failures that [fetch_order_book_eth] turns into [None]: a
    client error, a [KeyError], a status other than 200, a body without
    ["sellAmount"]. *)
Lemma fetch_failure_caught float_of_string str_of_float (resp : http) :
  resp = ClientError \/ resp = OtherException KeyError \/
  (exists status data, resp = Response status data /\ status <> 200) \/
  (exists data, resp = Response 200 (JObject data) /\ data !! "sellAmount" = None) ->
  fetch_order_book_eth float_of_string str_of_float resp = Ok None.
Proof.
  intros [-> | [-> | [(status & data & -> & Hs) | (data & -> & Hd)]]];
    [reflexivity | reflexivity | |].
  - simpl. rewrite decide_False by exact Hs. reflexivity.
  - simpl. unfold eth_parse. rewrite Hd. reflexivity.
Qed.

(** C8 at the failing input. A fetch can fail by raising: the [try]
    block of [fetch_order_book_eth] catches [aiohttp.ClientError] and
    [KeyError] only. When the API answers with a ["sellAmount"] of
    ["0"], the price is a division by zero, [ZeroDivisionError] leaves
    the fetcher, and, nothing catching it in [monitor_token], it ends
    the loop in that very cycle: nothing is logged, the loop does not
    sleep and no later cycle runs. The same happens for a request that
    times out, and for whatever exception a fetch raises. *)
Theorem raising_fetch_ends_loop :
  forall float_of_string str_of_float (data : order_book) (vb : val) (b : float)
         (history : list float) (feed : list (result (option order_book))),
    float_of_string "0" = Some zero ->
    data !! "sellAmount" = Some (VStr "0") ->
    data !! "buyAmount" = Some vb ->
    Py.to_float float_of_string vb = Ok b ->
    let fetch := fetch_order_book_eth float_of_string str_of_float in
    fetch (Response 200 (JObject data)) = Raise ZeroDivisionError /\
    monitor_loop float_of_string (fetch (Response 200 (JObject data)) :: feed) history
      = ([], Crashed ZeroDivisionError) /\
    monitor_loop float_of_string
      (fetch (OtherException (OtherError "TimeoutError")) :: feed) history
      = ([], Crashed (OtherError "TimeoutError")) /\
    forall e, monitor_loop float_of_string (Raise e :: feed) history = ([], Crashed e).
Proof.
  intros fos sof data vb b history feed H0 Hs Hb Hvb fetch.
  assert (Hf : fetch (Response 200 (JObject data)) = Raise ZeroDivisionError).
  { subst fetch. simpl. unfold eth_parse. rewrite Hs, Hb. simpl. rewrite H0, Hvb.
    reflexivity. }
  split; [exact Hf |]. rewrite Hf. repeat split.
Qed.

Lemma raising_fetch_ends_loop_witness :
  fetch_order_book_eth demo_parse (fun _ => "0") (Response 200 (JObject zero_sale))
    = Raise ZeroDivisionError /\
  monitor_loop demo_parse
    [Ok (Some (quote two zero));
     fetch_order_book_eth demo_parse (fun _ => "0") (Response 200 (JObject zero_sale));
     Ok (Some (quote one zero))] []
    = ([LogInfo two hundred; Sleep CHECK_INTERVAL], Crashed ZeroDivisionError).
Proof.
  destruct (raising_fetch_ends_loop demo_parse (fun _ => "0") zero_sale (VStr "1") one
              [two] [Ok (Some (quote one zero))]) as (Hf & Hl & _);
    [reflexivity.. |].
  split; [exact Hf |].
  rewrite monitor_loop_cons.
  change (monitor_cycle demo_parse (Some (quote two zero)) [])
    with (Ok ([two], [LogInfo two hundred; Sleep CHECK_INTERVAL])
          : result (list float * list event)).
  cbv beta iota zeta in Hl |- *. rewrite Hl. reflexivity.
Defined.

End MonitorProps.

(** ** [calculate_depth] *)

Module DepthProps.
Import F64 Scoring Spec.

Section Depth.
Variable float_of_string : string -> option float.
Variable float_loop : float -> list float -> float.

Abbreviation depth := (calculate_depth float_of_string float_loop).

(** The guard of [calculate_depth]: no order book, an empty one, or
    one without a ["bids"] or an ["asks"] entry yields the triple of
    [None]s. *)
Lemma calculate_depth_missing (ob : option order_book) :
  (ob = None \/
   exists d, ob = Some d /\ (d = ∅ \/ d !! "bids" = None \/ d !! "asks" = None)) ->
  depth ob = Ok invalid_depth.
Proof.
  intros [-> | (d & -> & H)]; [reflexivity |].
  unfold calculate_depth, falsy, has_key.
  destruct H as [-> | [H | H]].
  - rewrite bool_decide_eq_true_2 by reflexivity. reflexivity.
  - rewrite H. rewrite (bool_decide_eq_false_2 (is_Some None)) by (intros [? ?]; discriminate).
    rewrite orb_true_r. reflexivity.
  - rewrite H. rewrite (bool_decide_eq_false_2 (is_Some None)) by (intros [? ?]; discriminate).
    rewrite orb_true_r. reflexivity.
Qed.

Lemma raises_bind {A B} (r : result A) (k : A -> result B) :
  (forall a, r = Ok a -> raises (k a)) -> raises (Py.bind r k).
Proof.
  destruct r as [a | e]; intros H; [apply H; reflexivity | exists e; reflexivity].
Qed.

(** Past the guard nothing checks for emptiness: when both entries
    are present and one of them is an empty sequence, the function
    always leaves by an exception. *)
Lemma calculate_depth_empty_raises (d : order_book) (vb va : val) :
  d !! "bids" = Some vb -> d !! "asks" = Some va ->
  items vb = Ok [] \/ items va = Ok [] ->
  raises (depth (Some d)).
Proof.
  intros Hb Ha Hempty.
  assert (Hne : d <> ∅) by (intros ->; rewrite lookup_empty in Hb; discriminate).
  unfold calculate_depth, falsy, has_key, getitem.
  rewrite Hb, Ha.
  rewrite (bool_decide_eq_false_2 _ Hne).
  rewrite !bool_decide_eq_true_2 by eauto. cbn [negb orb Py.bind].
  unfold slice_to.
  apply raises_bind; intros bids Hbids.
  apply raises_bind; intros asks Hasks.
  apply raises_bind; intros bid_depth _.
  apply raises_bind; intros ask_depth _.
  apply raises_bind; intros a0 Ha0.
  apply raises_bind; intros a00 _.
  apply raises_bind; intros fa _.
  apply raises_bind; intros b0 Hb0.
  exfalso.
  destruct Hempty as [E | E]; rewrite E in *; cbn [Py.bind] in *.
  - injection Hbids as <-. discriminate.
  - injection Hasks as <-. discriminate.
Qed.
End Depth.

(** C3 at the failing input. With ["bids": []] the guard lets the
    order book through and [bids[0][0]] raises [IndexError]; the result
    is not the invalid-order-book triple.  This does not depend on how
    the interpreter sums floats. *)
Theorem calculate_depth_empty_bids :
  no_bids !! "bids" = Some (VSeq []) /\
  (forall float_loop,
      calculate_depth (fun _ => None) float_loop (Some no_bids) = Raise IndexError) /\
  (forall float_loop,
      calculate_depth (fun _ => None) float_loop (Some no_bids) <> Ok invalid_depth).
Proof.
  split; [vm_compute; reflexivity |].
  assert (H : forall float_loop,
             calculate_depth (fun _ => None) float_loop (Some no_bids) = Raise IndexError)
    by (intros float_loop; vm_compute; reflexivity).
  split; [exact H | intros float_loop; rewrite H; discriminate].
Qed.

End DepthProps.

(** ** More on rounding: mantissa width and bounds for every sign *)

Module RoundingMore.
Import F64 F64Facts Bounds Rounding Vocabulary.

Lemma Zdigits2_upper (m : Z) : 0 <= m -> m < 2 ^ Zdigits2 m.
Proof.
  destruct m as [| p | p]; intros Hm; [reflexivity | | lia].
  apply digits2_pos_bounds.
Qed.

Lemma Zdigits2_nonneg (m : Z) : 0 <= Zdigits2 m.
Proof. destruct m; simpl; lia. Qed.

(** A normalising shift leaves at most 53 bits. *)
Lemma shr_fexp_digits (m e : Z) (l : location) :
  0 <= m -> Zdigits2 (shr_m (fst (shr_fexp prec emax m e l))) <= 53.
Proof.
  intros Hm. unfold shr_fexp, shr.
  destruct (inexact_shr_record_of_loc m l) as [_ Hrec].
  pose proof (fexp_eq (Zdigits2 m + e)) as Hf.
  pose proof (Zdigits2_nonneg m) as Hd0.
  destruct (fexp prec emax (Zdigits2 m + e) - e) as [| p | p] eqn:Hn;
    cbn [fst]; try (rewrite Hrec; lia).
  destruct (iter_pos_shr_rel p (shr_record_of_loc m l)) as [Hq _];
    [rewrite Hrec; exact Hm |].
  rewrite Hq, Hrec.
  assert (H2p : 0 < 2 ^ Z.pos p) by (apply pow2_pos; lia).
  apply Zdigits2_le; [lia |]. split; [apply Z.div_pos; lia |].
  apply Z.div_lt_upper_bound; [lia |].
  rewrite <- pow2_split by lia.
  pose proof (Zdigits2_upper m Hm) as Hup.
  assert (2 ^ Zdigits2 m <= 2 ^ (Z.pos p + 53)) by (apply Z.pow_le_mono_r; lia).
  lia.
Qed.

Lemma binary_round_aux_mant (s : bool) (mx ex : Z) (lx : location) :
  0 <= mx -> mant_ok (binary_round_aux prec emax s mx ex lx).
Proof.
  intros Hm. unfold binary_round_aux.
  pose proof (shr_fexp_nonneg mx ex lx Hm) as H1.
  destruct (shr_fexp prec emax mx ex lx) as [mrs1 e1]. cbn [fst] in H1.
  pose proof (round_nearest_even_bounds (shr_m mrs1) (loc_of_shr_record mrs1)) as Hr.
  set (m1 := round_nearest_even (shr_m mrs1) (loc_of_shr_record mrs1)) in *.
  assert (Hm1 : 0 <= m1) by lia.
  pose proof (shr_fexp_digits m1 e1 loc_Exact Hm1) as Hd.
  pose proof (shr_fexp_nonneg m1 e1 loc_Exact Hm1) as H2.
  destruct (shr_fexp prec emax m1 e1 loc_Exact) as [mrs2 e2]. cbn [fst] in *.
  destruct (shr_m mrs2) as [| m | m] eqn:E; [exact I | | exact I].
  destruct (e2 <=? emax - prec); [| exact I].
  simpl. pose proof (Zdigits2_upper (Z.pos m) ltac:(lia)) as Hup.
  assert (2 ^ Zdigits2 (Z.pos m) <= 2 ^ 53) by (apply Z.pow_le_mono_r; lia).
  lia.
Qed.

Lemma mul_mant (a b : float) : mant_ok (mul a b).
Proof.
  destruct a as [sa | sa | | sa ma ea], b as [sb | sb | | sb mb eb];
    try exact I.
  unfold mul, SFmul. apply binary_round_aux_mant. lia.
Qed.

(** Without NaN, "not above the bound" is a bound. *)
Lemma not_gt_below (x : float) (pB : positive) (eB : Z) :
  mant_ok x -> is_nan x = false -> 2 ^ 52 <= Z.pos pB ->
  ltb (S754_finite false pB eB) x = false -> below (Z.pos pB) eB x.
Proof.
  intros Hm Hn HpB.
  destruct x as [s | [] | | [] m e]; simpl; try discriminate; auto.
  simpl in Hm. unfold ltb, SFltb. simpl.
  destruct (eB ?= e) eqn:He.
  - apply Z.compare_eq in He. subst e. intros H.
    rewrite Z.sub_diag, Z.pow_0_r, Z.mul_1_r. split; [lia |].
    change (Pos.compare_cont Eq pB m) with (pB ?= m)%positive in H.
    destruct (pB ?= m)%positive eqn:Hc; try discriminate.
    + apply Pos.compare_eq in Hc. subst. lia.
    + apply Pos.compare_gt_iff in Hc. lia.
  - discriminate.
  - intros _. rewrite Z.compare_gt_iff in He. split; [lia |].
    assert (2 ^ 1 <= 2 ^ (eB - e)) by (apply Z.pow_le_mono_r; lia).
    change (2 ^ 1) with 2 in *. nia.
Qed.

Lemma div_signed_true (m : positive) (e : Z) (pc : positive) (ec : Z) :
  signed true (div (S754_finite true m e) (S754_finite false pc ec)).
Proof.
  unfold div, SFdiv. simpl xorb.
  pose proof (div_core_spec m e pc ec) as H.
  destruct (SFdiv_core_binary prec emax (Z.pos m) e (Z.pos pc) ec) as [[q e'] l].
  destruct H as (_ & r & _ & _ & Hq & _).
  apply binary_round_aux_signed. exact Hq.
Qed.

(** The three bound lemmas again, negative operands included. *)
Lemma div_below_any (x : float) (pc : positive) (ec : Z) :
  below (Z.pos pc) ec x -> below mOne eOne (div x (S754_finite false pc ec)).
Proof.
  intros Hx. destruct x as [s | s | | [] m e].
  - exact I.
  - simpl in Hx. subst s. reflexivity.
  - destruct Hx.
  - apply signed_true_below, div_signed_true.
  - apply div_below; [reflexivity | exact Hx].
Qed.

Lemma mul_below_any (a : float) (pc : positive) (ec : Z) :
  bound_ok (Z.pos pc) ec -> below mOne eOne a ->
  below (Z.pos pc) ec (mul a (S754_finite false pc ec)).
Proof.
  intros Hok Ha. destruct a as [s | s | | [] m e].
  - exact I.
  - simpl in Ha. subst s. reflexivity.
  - destruct Ha.
  - apply signed_true_below. unfold mul, SFmul. simpl xorb.
    apply binary_round_aux_signed. lia.
  - apply mul_below; [exact Hok | reflexivity | exact Ha].
Qed.

Lemma sub_below_any (mB eB : Z) (b d : float) :
  bound_ok mB eB -> nonneg d -> below mB eB b -> below mB eB (sub b d).
Proof.
  intros Hok Hd Hb. destruct b as [s | s | | [] m e].
  - apply sub_below; [exact Hok | exact I | exact Hd | exact I].
  - simpl in Hb. subst s.
    destruct d as [sd | [] | | sd md ed]; simpl in Hd; try discriminate;
      try destruct Hd; reflexivity.
  - destruct Hb.
  - destruct d as [sd | [] | | [] md ed]; simpl in Hd; try discriminate;
      try destruct Hd; try exact I; try reflexivity.
    unfold sub, SFsub. cbn [cond_Zopp].
    destruct (- Z.pos (shl_align m e (Z.min e ed)).1
              - Z.pos (shl_align md ed (Z.min e ed)).1) as [| p | p] eqn:E;
      cbn [binary_normalize]; try lia.
    apply signed_true_below, binary_round_signed.
  - apply sub_below; [exact Hok | reflexivity | exact Hd | exact Hb].
Qed.

End RoundingMore.

(** ** The order of the doubles *)

Module OrderProps.
Import F64 F64Facts Vocabulary.

Lemma lexc_refl (k : Z * Z * Z) : lexc k k = Eq.
Proof. destruct k as [[a b] c]. simpl. now rewrite !Z.compare_refl. Qed.

(** [SFcompare] is the lexicographic comparison of the keys. *)
Lemma SFcompare_key (x y : float) :
  SFcompare x y =
    match key x, key y with
    | Some k, Some k' => Some (lexc k k')
    | _, _ => None
    end.
Proof.
  destruct x as [sx | [] | | [] mx ex], y as [sy | [] | | [] my ey];
    try reflexivity; cbn [SFcompare key lexc].
  assert (H : (- ex ?= - ey) = CompOpp (ex ?= ey))
    by (rewrite Z.compare_opp; apply Z.compare_antisym).
  change (-1 ?= -1) with Eq. cbv iota. rewrite H.
  change (- Z.pos mx ?= - Z.pos my) with (CompOpp (mx ?= my)%positive).
  change (Pos.compare_cont Eq mx my) with (mx ?= my)%positive.
  destruct (ex ?= ey); reflexivity.
Qed.

Lemma lexc_Lt_trans (k1 k2 k3 : Z * Z * Z) :
  lexc k1 k2 <> Gt -> lexc k2 k3 = Lt -> lexc k1 k3 = Lt.
Proof.
  destruct k1 as [[a1 b1] c1], k2 as [[a2 b2] c2], k3 as [[a3 b3] c3].
  unfold lexc.
  destruct (Z.compare_spec a1 a2), (Z.compare_spec a2 a3),
    (Z.compare_spec a1 a3); try lia; try congruence;
    destruct (Z.compare_spec b1 b2), (Z.compare_spec b2 b3),
      (Z.compare_spec b1 b3); try lia; try congruence;
    destruct (Z.compare_spec c1 c2), (Z.compare_spec c2 c3),
      (Z.compare_spec c1 c3); try lia; congruence.
Qed.

Lemma lexc_Lt_trans' (k1 k2 k3 : Z * Z * Z) :
  lexc k1 k2 = Lt -> lexc k2 k3 <> Gt -> lexc k1 k3 = Lt.
Proof.
  destruct k1 as [[a1 b1] c1], k2 as [[a2 b2] c2], k3 as [[a3 b3] c3].
  unfold lexc.
  destruct (Z.compare_spec a1 a2), (Z.compare_spec a2 a3),
    (Z.compare_spec a1 a3); try lia; try congruence;
    destruct (Z.compare_spec b1 b2), (Z.compare_spec b2 b3),
      (Z.compare_spec b1 b3); try lia; try congruence;
    destruct (Z.compare_spec c1 c2), (Z.compare_spec c2 c3),
      (Z.compare_spec c1 c3); try lia; congruence.
Qed.

(** [x <= y < z] gives [x < z], for all doubles. *)
Lemma leb_ltb_trans (x y z : float) :
  leb x y = true -> ltb y z = true -> ltb x z = true.
Proof.
  unfold leb, ltb, SFleb, SFltb. rewrite !SFcompare_key.
  destruct (key x) as [kx |], (key y) as [ky |], (key z) as [kz |];
    try discriminate.
  intros H1 H2.
  rewrite (lexc_Lt_trans kx ky kz); [reflexivity | |].
  - destruct (lexc kx ky); congruence.
  - destruct (lexc ky kz); congruence.
Qed.

(** [x < y <= z] gives [x < z]. *)
Lemma ltb_leb_trans (x y z : float) :
  ltb x y = true -> leb y z = true -> ltb x z = true.
Proof.
  unfold leb, ltb, SFleb, SFltb. rewrite !SFcompare_key.
  destruct (key x) as [kx |], (key y) as [ky |], (key z) as [kz |];
    try discriminate.
  intros H1 H2.
  rewrite (lexc_Lt_trans' kx ky kz); [reflexivity | |].
  - destruct (lexc kx ky); congruence.
  - destruct (lexc ky kz); congruence.
Qed.

Lemma ltb_trans (x y z : float) :
  ltb x y = true -> ltb y z = true -> ltb x z = true.
Proof. intros H. apply leb_ltb_trans, ltb_leb, H. Qed.

(** Away from NaN the order is total. *)
Lemma not_ltb_leb (x y : float) :
  is_nan x = false -> is_nan y = false -> ltb x y = false -> leb y x = true.
Proof.
  unfold ltb, leb, SFltb, SFleb. rewrite (SFcompare_swap x y), SFcompare_key.
  destruct x as [sx | [] | | [] mx ex], y as [sy | [] | | [] my ey];
    try discriminate; intros _ _; cbn [key];
    match goal with |- context [lexc ?a ?b] => destruct (lexc a b) end;
    simpl; congruence.
Qed.

End OrderProps.

(** ** More on the scoring functions *)

Module ScoringMore.
Import F64 F64Facts Scoring Spec Bounds Rounding Vocabulary RoundingMore OrderProps.

(** *** The liquidity score *)

Lemma nonneg_leb_zero (x : float) : nonneg x -> leb zero x = true.
Proof. destruct x as [s | [] | | [] m e]; simpl; try discriminate; tauto. Qed.

Lemma nonneg_not_nan (x : float) : nonneg x -> is_nan x = false.
Proof. destruct x; simpl; tauto. Qed.

Lemma add_one_nonneg (x : float) : nonneg x -> nonneg (add one x).
Proof.
  destruct x as [s | s | | s m e]; simpl; try tauto; try reflexivity.
  intros ->. unfold add, one, SFadd. cbn [cond_Zopp].
  destruct (Z.pos (shl_align 4503599627370496 (-52) (Z.min (-52) e)).1
            + Z.pos (shl_align m e (Z.min (-52) e)).1) as [| p | p] eqn:E;
    cbn [binary_normalize]; try lia.
  apply signed_false_nonneg, binary_round_signed.
Qed.

Lemma div_one_nonneg (y : float) :
  nonneg y -> is_zero y = false -> nonneg (div one y).
Proof.
  intros Hy Hz. destruct y as [s | s | | s m e]; simpl in Hy, Hz;
    try discriminate; try contradiction; subst s.
  - exact I.
  - apply (div_nonneg one m e). reflexivity.
Qed.

(** For an impact that is not negative the score expression lies in
    [[0, 100]]. *)
Lemma impact_score_range (x : float) :
  nonneg x ->
  leb zero (impact_score x) = true /\ leb (impact_score x) hundred = true.
Proof.
  intros Hx. unfold impact_score, pymin, MAX_LIQUIDITY_SCORE.
  assert (Hv : nonneg (mul (div one (add one x)) hundred))
    by (apply (mul_nonneg _ 7036874417766400 (-46)), div_one_nonneg;
          [apply add_one_nonneg, Hx | apply add_one_nonzero, Hx]).
  destruct (ltb hundred _) eqn:Hlt; [split; reflexivity |].
  split; [apply nonneg_leb_zero, Hv |].
  apply not_ltb_leb; [reflexivity | apply nonneg_not_nan, Hv | exact Hlt].
Qed.

(** The score expression is a NaN or at most 100, for every impact. *)
Lemma impact_score_nan_or_below (x : float) :
  is_nan (impact_score x) = true \/ below 7036874417766400 (-46) (impact_score x).
Proof.
  unfold impact_score, pymin, MAX_LIQUIDITY_SCORE.
  destruct (ltb hundred _) eqn:Hlt.
  - right. simpl. split; lia.
  - destruct (is_nan (mul (div one (add one x)) hundred)) eqn:Hn; [left; reflexivity |].
    right. apply not_gt_below; [apply mul_mant | exact Hn | lia | exact Hlt].
Qed.

Section Liquidity.
Variable float_of_string : string -> option float.

Lemma evaluate_liquidity_inv (d : order_book) (s : float) :
  evaluate_liquidity float_of_string d = Ok s ->
  s = zero \/ exists x, s = impact_score x.
Proof.
  unfold evaluate_liquidity.
  destruct (d !! "estimatedPriceImpact") as [v |]; [| intros [= <-]; auto].
  destruct (to_float float_of_string v) as [x | e]; [| discriminate]. cbn [Py.bind].
  destruct (truediv one (add one x)) as [q | e] eqn:Hq; [| discriminate]. cbn [Py.bind].
  unfold truediv in Hq. destruct (is_zero (add one x)); [discriminate |].
  injection Hq as <-. intros [= <-]. right. exists x. reflexivity.
Qed.

(** X1. Whatever the order book, a liquidity score that
    [evaluate_liquidity] returns never compares above 100; and when the
    price impact is absent, or present and turned by [float()] into a
    double that is not negative, a score in [[0, 100]] is returned. *)
Theorem liquidity_score_range (d : order_book) :
  (forall s, evaluate_liquidity float_of_string d = Ok s -> ltb hundred s = false) /\
  (d !! "estimatedPriceImpact" = None \/
   (exists v x, d !! "estimatedPriceImpact" = Some v /\
                to_float float_of_string v = Ok x /\ leb zero x = true) ->
   exists s, evaluate_liquidity float_of_string d = Ok s /\
             leb zero s = true /\ leb s hundred = true).
Proof.
  split.
  - intros s Hs. apply evaluate_liquidity_inv in Hs as [-> | [x ->]]; [reflexivity |].
    unfold impact_score, pymin, MAX_LIQUIDITY_SCORE.
    destruct (ltb hundred (mul _ _)) eqn:Hlt; [reflexivity | exact Hlt].
  - intros [Habs | (v & x & Hv & Hx & Hpos)].
    + exists zero. unfold evaluate_liquidity. rewrite Habs. repeat split.
    + exists (impact_score x). apply leb_zero_nonneg in Hpos.
      split; [| apply impact_score_range, Hpos].
      rewrite (ScoringProps.evaluate_liquidity_present float_of_string d v x Hv Hx).
      rewrite add_one_nonzero by exact Hpos. reflexivity.
Qed.
End Liquidity.

Lemma liquidity_score_range_witness :
  exists s, evaluate_liquidity (fun _ => None) (impact_book (dec 25 100)) = Ok s /\
            leb zero s = true /\ leb s hundred = true.
Proof.
  apply (liquidity_score_range (fun _ => None) (impact_book (dec 25 100))).
  right. exists (VFloat (dec 25 100)), (dec 25 100).
  repeat split; vm_compute; reflexivity.
Defined.

(** *** The composite score *)

Lemma standardize_score_of_nan (liquidity_score risk_score : float) :
  is_nan liquidity_score = true \/ is_nan risk_score = true ->
  standardize_score liquidity_score risk_score = Ok hundred.
Proof.
  intros H.
  unfold standardize_score. rewrite ScoringProps.raw_score_ok. cbn [Py.bind].
  assert (Hs : sub (mul (div liquidity_score hundred) sixty)
                   (mul (div risk_score fifty) forty) = S754_nan).
  { destruct H as [H | H].
    - destruct liquidity_score; try discriminate. reflexivity.
    - destruct risk_score; try discriminate.
      change (mul (div S754_nan fifty) forty) with S754_nan.
      unfold sub, SFsub. destruct (mul _ _); reflexivity. }
  rewrite Hs. reflexivity.
Qed.

(** X2. A NaN among the two scores makes [standardize_score] return
    100, the top of the scale, which the driver reads as "worth
    buying". *)
Theorem standardize_score_nan (liquidity_score risk_score : float) :
  is_nan liquidity_score = true \/ is_nan risk_score = true ->
  standardize_score liquidity_score risk_score = Ok hundred /\
  verdict hundred = WorthBuying.
Proof.
  intros H. split; [apply standardize_score_of_nan, H | reflexivity].
Qed.

Lemma standardize_score_nan_witness :
  standardize_score S754_nan fifty = Ok hundred /\ verdict hundred = WorthBuying.
Proof. apply standardize_score_nan. left. reflexivity. Defined.

Lemma bound_ok_60 : bound_ok 8444249301319680 (-47).
Proof. unfold bound_ok. lia. Qed.

(** A liquidity score at most 100 and a risk score that is not negative
    leave the unclamped score at most 60. *)
Lemma raw_score_below_60 (liquidity_score risk_score : float) :
  below 7036874417766400 (-46) liquidity_score -> nonneg risk_score ->
  below 8444249301319680 (-47)
    (sub (mul (div liquidity_score hundred) sixty)
         (mul (div risk_score fifty) forty)).
Proof.
  intros Hl Hr. apply sub_below_any.
  - exact bound_ok_60.
  - apply (mul_nonneg _ 5629499534213120 (-47)).
    apply (div_nonneg _ 7036874417766400 (-47)). exact Hr.
  - apply (mul_below_any _ 8444249301319680 (-47)); [exact bound_ok_60 |].
    apply (div_below_any _ 7036874417766400 (-46)). exact Hl.
Qed.

Lemma standardize_below_60 (liquidity_score risk_score : float) :
  below 7036874417766400 (-46) liquidity_score -> nonneg risk_score ->
  exists c, standardize_score liquidity_score risk_score = Ok c /\
            leb c sixty = true /\ verdict c = NotRecommended.
Proof.
  intros Hl Hr. pose proof (raw_score_below_60 _ _ Hl Hr) as Hs.
  set (s := sub _ _) in Hs.
  exists (pymax zero (pymin hundred s)). split; [reflexivity |].
  assert (Hle : leb (pymax zero (pymin hundred s)) sixty = true).
  { assert (Hlt100 : ltb s hundred = true)
      by (apply (below_ltb s _ _ 7036874417766400 (-46) Hs); lia).
    unfold pymin. rewrite Hlt100. unfold pymax. destruct (ltb zero s); [| reflexivity].
    apply (below_leb s 8444249301319680 (-47)). exact Hs. }
  split; [exact Hle |].
  unfold verdict. rewrite (leb_not_ltb _ _ Hle). reflexivity.
Qed.

Lemma assess_risk_nonneg (price r : float) : assess_risk price = Ok r -> nonneg r.
Proof.
  rewrite ScoringProps.assess_risk_cases. intros [= <-].
  destruct (ltb price cent); [reflexivity |].
  destruct (ltb price one); reflexivity.
Qed.

(** *** The risk score *)

(** X3. [assess_risk] never rewards a lower price: of two prices the
    smaller one gets a risk score at least as high. *)
Theorem assess_risk_antitone (p q : float) :
  leb p q = true ->
  exists rp rq, assess_risk p = Ok rp /\ assess_risk q = Ok rq /\ leb rq rp = true.
Proof.
  intros Hpq. rewrite !ScoringProps.assess_risk_cases. do 2 eexists.
  split; [reflexivity |]. split; [reflexivity |].
  destruct (ltb q cent) eqn:Hqc.
  - rewrite (leb_ltb_trans p q cent Hpq Hqc). reflexivity.
  - destruct (ltb q one) eqn:Hq1.
    + rewrite (leb_ltb_trans p q one Hpq Hq1).
      destruct (ltb p cent); reflexivity.
    + destruct (ltb p cent); [reflexivity |]. destruct (ltb p one); reflexivity.
Qed.

Lemma assess_risk_antitone_witness :
  exists rp rq, assess_risk (dec 5 1000) = Ok rp /\ assess_risk (of_Z 5) = Ok rq /\
                leb rq rp = true.
Proof. apply assess_risk_antitone. vm_compute. reflexivity. Defined.

End ScoringMore.

(** ** More on [calculate_depth] *)

Module DepthMore.
Import F64 Scoring Spec Vocabulary.

Section Depth.
Variable float_of_string : string -> option float.
Variable float_loop : float -> list float -> float.

Abbreviation depth := (calculate_depth float_of_string float_loop).

Lemma bind_Ok {A B} (r : result A) (k : A -> result B) (b : B) :
  Py.bind r k = Ok b -> exists a, r = Ok a /\ k a = Ok b.
Proof. destruct r as [a | e]; [eauto | discriminate]. Qed.

Lemma guard_passed (d : order_book) (vb va : val) :
  d !! "bids" = Some vb -> d !! "asks" = Some va ->
  falsy (Some d) || negb (has_key "bids" d) || negb (has_key "asks" d) = false.
Proof.
  intros Hb Ha.
  assert (Hne : d <> ∅) by (intros ->; rewrite lookup_empty in Hb; discriminate).
  unfold falsy, has_key. rewrite Hb, Ha.
  rewrite (bool_decide_eq_false_2 _ Hne).
  rewrite !bool_decide_eq_true_2 by eauto. reflexivity.
Qed.

(** X4. [calculate_depth] answers [(None, None, None)] exactly for
    the order books its guard rejects: no dict, an empty dict, or a dict
    without ["bids"] or without ["asks"]. Every other order book gives
    three numbers or an exception. *)
Theorem calculate_depth_invalid_iff (ob : option order_book) :
  depth ob = Ok invalid_depth <->
  (ob = None \/
   exists d, ob = Some d /\ (d = ∅ \/ d !! "bids" = None \/ d !! "asks" = None)).
Proof.
  split; [| apply DepthProps.calculate_depth_missing].
  destruct ob as [d |]; [| auto]. intros H. right. exists d. split; [reflexivity |].
  destruct (d !! "bids") as [vb |] eqn:Hb; [| auto].
  destruct (d !! "asks") as [va |] eqn:Ha; [| auto].
  exfalso. unfold calculate_depth in H.
  rewrite (guard_passed d vb va Hb Ha) in H.
  repeat (apply bind_Ok in H as (? & _ & H)). discriminate.
Qed.

(** X5. Only the first [ORDER_BOOK_DEPTH] = 10 levels of each side
    count: cutting both lists down to their first ten entries changes
    nothing in the result, errors included. *)
Theorem calculate_depth_truncates (d : order_book) (bids asks : list val) :
  d !! "bids" = Some (VSeq bids) -> d !! "asks" = Some (VSeq asks) ->
  depth (Some (<[ "bids" := VSeq (take ORDER_BOOK_DEPTH bids) ]>
               (<[ "asks" := VSeq (take ORDER_BOOK_DEPTH asks) ]> d)))
  = depth (Some d).
Proof.
  intros Hb Ha. unfold calculate_depth.
  rewrite (guard_passed d _ _ Hb Ha).
  rewrite (guard_passed _ (VSeq (take ORDER_BOOK_DEPTH bids))
             (VSeq (take ORDER_BOOK_DEPTH asks)))
    by (simplify_map_eq; reflexivity).
  unfold getitem. simplify_map_eq. cbn [Py.bind].
  rewrite !take_take, Nat.min_id. reflexivity.
Qed.

Lemma sizes_levels (l : list (float * float)) :
  Py.sizes float_of_string (level <$> l) = Ok (snd <$> l).
Proof.
  induction l as [| [p s] l IH]; [reflexivity |].
  change (Py.sizes float_of_string (level (p, s) :: (level <$> l))
          = Ok (s :: (snd <$> l))).
  cbn [Py.sizes]. rewrite IH. reflexivity.
Qed.

(** Where the float loop adds one float after the other, [sum] is the
    sizes added up from 0 in list order. *)
Lemma sum_floats_plain (xs : list float) :
  Py.sum_floats Py.plain_loop xs = fold_left add xs zero.
Proof. destruct xs as [| x [| y rest]]; reflexivity. Qed.

Lemma calculate_depth_sums (loop : float -> list float -> float) (d : order_book)
    (b0 a0 : float * float) (bids asks : list (float * float)) :
  d !! "bids" = Some (VSeq (level <$> b0 :: bids)) ->
  d !! "asks" = Some (VSeq (level <$> a0 :: asks)) ->
  calculate_depth float_of_string loop (Some d)
  = Ok (Some (Py.sum_floats loop (snd <$> take ORDER_BOOK_DEPTH (b0 :: bids))),
        Some (Py.sum_floats loop (snd <$> take ORDER_BOOK_DEPTH (a0 :: asks))),
        Some (sub a0.1 b0.1)).
Proof.
  intros Hb Ha. unfold calculate_depth.
  rewrite (guard_passed d _ _ Hb Ha).
  unfold getitem, slice_to, Py.sum_sizes. rewrite Hb, Ha. cbn [Py.bind items].
  rewrite <- !fmap_take, !sizes_levels. cbn [Py.bind].
  reflexivity.
Qed.

(** X6. On an order book whose two sides are non-empty lists of
    [(price, size)] pairs of numbers, [calculate_depth] returns what
    [sum] makes of the first ten bid sizes and of the first ten ask
    sizes, and the best ask price minus the best bid price. Where [sum]
    adds one float after the other (CPython up to 3.11), the two depths
    are the sizes added up from 0 in list order. *)
Theorem calculate_depth_levels (d : order_book) (b0 a0 : float * float)
    (bids asks : list (float * float)) :
  d !! "bids" = Some (VSeq (level <$> b0 :: bids)) ->
  d !! "asks" = Some (VSeq (level <$> a0 :: asks)) ->
  depth (Some d)
  = Ok (Some (Py.sum_floats float_loop (snd <$> take ORDER_BOOK_DEPTH (b0 :: bids))),
        Some (Py.sum_floats float_loop (snd <$> take ORDER_BOOK_DEPTH (a0 :: asks))),
        Some (sub a0.1 b0.1)) /\
  calculate_depth float_of_string Py.plain_loop (Some d)
  = Ok (Some (fold_left add (snd <$> take ORDER_BOOK_DEPTH (b0 :: bids)) zero),
        Some (fold_left add (snd <$> take ORDER_BOOK_DEPTH (a0 :: asks)) zero),
        Some (sub a0.1 b0.1)).
Proof.
  intros Hb Ha. split; [now apply calculate_depth_sums |].
  rewrite (calculate_depth_sums Py.plain_loop d b0 a0 bids asks Hb Ha).
  rewrite !sum_floats_plain. reflexivity.
Qed.
End Depth.

Lemma calculate_depth_truncates_witness :
  calculate_depth (fun _ => None) Py.plain_loop
    (Some (<[ "bids" := VSeq (take ORDER_BOOK_DEPTH (level <$> deep_side one 12)) ]>
          (<[ "asks" := VSeq (take ORDER_BOOK_DEPTH (level <$> deep_side two 11)) ]>
           deep_book)))
  = calculate_depth (fun _ => None) Py.plain_loop (Some deep_book).
Proof.
  apply (calculate_depth_truncates (fun _ => None) Py.plain_loop deep_book
           (level <$> deep_side one 12) (level <$> deep_side two 11)); reflexivity.
Defined.

Lemma calculate_depth_levels_witness :
  calculate_depth (fun _ => None) Py.plain_loop (Some deep_book)
  = Ok (Some (of_Z 55), Some (of_Z 55), Some one).
Proof.
  destruct (calculate_depth_levels (fun _ => None) Py.plain_loop deep_book
              (one, of_Z 1) (two, of_Z 1)
              (tail (deep_side one 12)) (tail (deep_side two 11))) as [_ ->];
    [reflexivity | reflexivity |].
  vm_compute. reflexivity.
Defined.

End DepthMore.

(** ** The one-shot driver *)

Module DriverProps.
Import F64 F64Facts Scoring Fetch OneShot Spec Bounds Rounding Vocabulary.
Import RoundingMore OrderProps ScoringMore.

Section Driver.
Variable float_of_string : string -> option float.
Variable str_of_float : float -> string.

Abbreviation scores_of := (scores float_of_string).
Abbreviation report_of := (report float_of_string).
Abbreviation run := (main float_of_string str_of_float).

(** A risk score comes from a float price, which is then the price
    printed, or from an int beyond the doubles; it is never negative. *)
Lemma risk_of_inv (v : val) (r : float) (printed : option float) :
  risk_of v = Ok (r, printed) ->
  nonneg r /\
  match printed with
  | Some p => v = VFloat p /\ assess_risk p = Ok r
  | None => exists negative, v = VBig negative
  end.
Proof.
  destruct v as [| p | negative | |]; try discriminate; simpl.
  - destruct (assess_risk p) as [r' |] eqn:Hr; [| discriminate].
    intros [= <- <-]. split; [eapply assess_risk_nonneg; eauto | auto].
  - destruct negative; intros [= <- <-]; split; eauto; reflexivity.
Qed.

Lemma scores_inv (d : order_book) (c l r : float) (printed : option float) :
  scores_of d = Ok (c, l, r, printed) ->
  evaluate_liquidity float_of_string d = Ok l /\
  (exists v, d !! "price" = Some v /\ risk_of v = Ok (r, printed)) /\
  standardize_score l r = Ok c.
Proof.
  unfold scores, getitem.
  destruct (evaluate_liquidity float_of_string d) as [l' | e]; [| discriminate].
  cbn [Py.bind].
  destruct (d !! "price") as [v |]; cbn [Py.bind]; [| discriminate].
  destruct (risk_of v) as [[r' printed'] | e] eqn:Hr; [| discriminate]. cbn [Py.bind].
  destruct (standardize_score l' r') as [c' | e] eqn:Hc; [| discriminate].
  cbn [Py.bind]. intros [= <- <- <- <-]. repeat split; eauto.
Qed.

(** What the scores the driver computes are worth: "worth buying" for
    a NaN liquidity score, and for nothing else. *)
Lemma scores_verdict (d : order_book) (c l r : float) (printed : option float) :
  scores_of d = Ok (c, l, r, printed) ->
  (is_nan l = true -> verdict c = WorthBuying) /\
  (is_nan l = false -> verdict c = NotRecommended /\ leb c sixty = true).
Proof.
  intros H. apply scores_inv in H as (Hl & (v & _ & Hr) & Hc).
  apply risk_of_inv in Hr as [Hr _]. split.
  - intros Hn. rewrite standardize_score_of_nan in Hc by auto.
    injection Hc as <-. reflexivity.
  - intros Hn.
    assert (Hb : below 7036874417766400 (-46) l).
    { apply evaluate_liquidity_inv in Hl as [-> | [x ->]]; [exact I |].
      destruct (impact_score_nan_or_below x) as [Hx | Hx]; [congruence | exact Hx]. }
    destruct (standardize_below_60 l r Hb Hr) as (c' & Hc' & Hle & Hv).
    rewrite Hc' in Hc. injection Hc as <-. auto.
Qed.

Lemma report_advice (ob : option json) (lines : list line) (ex : exit)
    (a : advice) :
  report_of ob = (lines, ex) -> In (Advice a) lines ->
  exists c l r p,
    lines = [Scores c l r p; Advice a] /\ ex = Returned /\
    (is_nan l = true -> a = WorthBuying) /\
    (is_nan l = false -> a = NotRecommended /\ leb c sixty = true).
Proof.
  unfold report. destruct ob as [[d | []] |];
    try (intros [= <- <-] [Hin | []]; discriminate);
    try (intros [= <- <-] []).
  destruct (falsy (Some d)).
  - intros [= <- <-] [Hin | []]. discriminate.
  - destruct (scores_of d) as [[[[c l] r] [p |]] | e] eqn:Hs.
    + intros [= <- <-] [Hin | [Hin | []]]; [discriminate |].
      injection Hin as <-.
      exists c, l, r, p. split; [reflexivity |]. split; [reflexivity |].
      apply (scores_verdict d c l r (Some p) Hs).
    + intros [= <- <-] [Hin | []]. discriminate.
    + intros [= <- <-] [].
Qed.


(** When the chain has bound the local and printed nothing, [main] is
    the common part on the value bound. *)
Lemma main_bound (choice : string) (resp : http) (nft : result bool)
    (order_book : option json) :
  choose float_of_string str_of_float choice resp nft = Ok (GoesOn [] (Bound order_book)) ->
  run choice resp nft = report_of order_book.
Proof.
  unfold main. intros ->. destruct (report_of order_book). reflexivity.
Qed.

(** The four ways the chain can go. *)
Lemma choose_cases (choice : string) (resp : http) (nft : result bool) :
  (exists order_book,
     (choice = "1" \/ choice = "2") /\
     choose float_of_string str_of_float choice resp nft
       = Ok (GoesOn [] (Bound order_book))) \/
  (exists e, choose float_of_string str_of_float choice resp nft = Raise e) \/
  (exists found,
     choice = "3" /\ nft = Ok found /\
     choose float_of_string str_of_float choice resp nft
       = Ok (GoesOn [if found then NftInfo else NftUnavailable] Unbound)) \/
  (choice <> "1" /\ choice <> "2" /\ choice <> "3" /\
   choose float_of_string str_of_float choice resp nft = Ok Leaves).
Proof.
  unfold choose.
  destruct (decide (choice = "1")) as [-> | H1].
  { destruct (fetch_order_book_btc resp) as [ob | e]; cbn [Py.bind]; eauto 6. }
  destruct (decide (choice = "2")) as [-> | H2].
  { destruct (fetch_order_book_eth _ _ resp) as [ob | e]; cbn [Py.bind]; eauto 6. }
  destruct (decide (choice = "3")) as [-> | H3].
  { destruct nft as [found | e]; cbn [Py.bind]; eauto 8. }
  auto 8.
Qed.

(** X7. Whenever [main] prints an advice, it has printed the four
    scores just before and returns normally; the advice is "worth
    buying" if the liquidity score printed is a NaN and "not
    recommended" otherwise, the combined score being at most 60 then. *)
Theorem main_advice (choice : string) (resp : http) (nft : result bool)
    (lines : list line) (ex : exit) (a : advice) :
  run choice resp nft = (lines, ex) -> In (Advice a) lines ->
  exists c l r p,
    lines = [Scores c l r p; Advice a] /\ ex = Returned /\
    (is_nan l = true -> a = WorthBuying) /\
    (is_nan l = false -> a = NotRecommended /\ leb c sixty = true).
Proof.
  destruct (choose_cases choice resp nft)
    as [(ob & _ & Hc) | [(e & Hc) | [(found & _ & _ & Hc) | (_ & _ & _ & Hc)]]].
  - rewrite (main_bound _ _ _ _ Hc). apply report_advice.
  - unfold main. rewrite Hc. intros [= <- <-] [].
  - unfold main. rewrite Hc. intros [= <- <-] [Hin | []]. destruct found; discriminate.
  - unfold main. rewrite Hc. intros [= <- <-] [Hin | []]. discriminate.
Qed.


(** X9. On choice 1 the body of the response is used as it came: when
    it is a non-empty object with neither a ["price"] nor an
    ["estimatedPriceImpact"] entry, [main] prints nothing and ends in
    [KeyError]. *)
Theorem main_btc_without_price (d : order_book) (nft : result bool) :
  d <> ∅ -> d !! "price" = None -> d !! "estimatedPriceImpact" = None ->
  run "1" (Response 200 (JObject d)) nft = ([], Raised KeyError).
Proof.
  intros Hne Hp Hi. unfold main. simpl. unfold report, falsy.
  rewrite (bool_decide_eq_false_2 _ Hne).
  unfold scores, evaluate_liquidity, getitem. rewrite Hi, Hp. reflexivity.
Qed.
End Driver.

Lemma main_advice_witness :
  exists c l r p,
    [Scores hundred S754_nan fifty zero; Advice WorthBuying]
      = [Scores c l r p; Advice WorthBuying] /\ Returned = Returned /\
    (is_nan l = true -> WorthBuying = WorthBuying) /\
    (is_nan l = false -> WorthBuying = NotRecommended /\ leb c sixty = true).
Proof.
  apply (main_advice (fun _ => None) (fun _ => EmptyString) "1"
           (Response 200 (JObject (quote zero S754_nan))) (Ok true)).
  - vm_compute. reflexivity.
  - simpl. auto.
Defined.


Lemma main_btc_without_price_witness :
  main (fun _ => None) (fun _ => EmptyString) "1"
    (Response 200 (JObject {[ "symbol" := VStr "BTC-USD" ]})) (Ok true)
  = ([], Raised KeyError).
Proof.
  apply main_btc_without_price; [| reflexivity | reflexivity].
  intros H. apply (f_equal (fun m : order_book => m !! "symbol")) in H.
  vm_compute in H. discriminate.
Defined.

End DriverProps.

(** ** The ETH fetcher and what is done with its order books *)

Module FetchProps.
Import F64 Scoring Monitor Fetch Spec Vocabulary.

Section Eth.
Variable float_of_string : string -> option float.
Variable str_of_float : float -> string.

Abbreviation fetch_eth := (fetch_order_book_eth float_of_string str_of_float).
Abbreviation parse := (eth_parse float_of_string str_of_float).
Abbreviation book := (eth_book str_of_float).
Abbreviation to_float := (Py.to_float float_of_string).

Lemma to_float_error (v : val) (e : exn) :
  to_float v = Raise e -> e = ValueError \/ e = TypeError \/ e = OverflowError.
Proof.
  destruct v as [| f | negative | s |]; simpl; try discriminate.
  - intros [= <-]. auto.
  - intros [= <-]. auto.
  - destruct (float_of_string s); [discriminate | intros [= <-]; auto].
  - intros [= <-]. auto.
Qed.

Lemma truediv_error (x y : float) (e : exn) :
  truediv x y = Raise e -> e = ZeroDivisionError.
Proof. unfold truediv. destruct (is_zero y); [intros [= <-]; auto | discriminate]. Qed.

Lemma truediv_Ok (x y q : float) :
  truediv x y = Ok q -> is_zero y = false /\ q = div x y.
Proof. unfold truediv. destruct (is_zero y); [discriminate | intros [= <-]; auto]. Qed.

Abbreviation parsed := (Vocabulary.parsed float_of_string str_of_float).

Lemma eth_parse_parsed (data : order_book) (r : result (option order_book)) :
  parse data = r <-> parsed data r.
Proof.
  unfold eth_parse. split.
  - intros <-.
    destruct (data !! "sellAmount") as [vs |] eqn:Hvs; [| now apply NoSell].
    destruct (to_float vs) as [s | e] eqn:Hfs; cbn [Py.bind];
      [| eapply BadSell; eassumption].
    change (truediv s e18) with (Ok (div s e18)). cbn [Py.bind].
    destruct (data !! "buyAmount") as [vb |] eqn:Hvb; [| eapply NoBuy; eassumption].
    destruct (to_float vb) as [b | e] eqn:Hfb; cbn [Py.bind];
      [| eapply BadBuy; eassumption].
    change (truediv b e6) with (Ok (div b e6)). cbn [Py.bind].
    unfold truediv. destruct (is_zero (div s e18)) eqn:Hz; cbn [Py.bind].
    + eapply ZeroSell; eassumption.
    + eapply Priced; eassumption.
  - intros H. destruct H as [Hs | vs e Hs Hfs | vs s Hs Hfs Hb | vs s vb e Hs Hfs Hb Hfb
                             | vs s vb b Hs Hfs Hb Hfb Hz | vs s vb b Hs Hfs Hb Hfb Hz];
      rewrite Hs; try reflexivity; rewrite Hfs; cbn [Py.bind]; try reflexivity;
      change (truediv s e18) with (Ok (div s e18)); cbn [Py.bind];
      rewrite Hb; try reflexivity; rewrite Hfb; cbn [Py.bind]; try reflexivity;
      change (truediv b e6) with (Ok (div b e6)); cbn [Py.bind];
      unfold truediv; rewrite Hz; reflexivity.
Qed.

Lemma parsed_error (data : order_book) (e : exn) :
  parsed data (Raise e) ->
  e = ValueError \/ e = TypeError \/ e = OverflowError \/ e = ZeroDivisionError.
Proof.
  inversion 1; subst; auto;
    match goal with H : to_float _ = Raise _ |- _ => apply to_float_error in H end; tauto.
Qed.

Lemma fetch_eth_object (data : order_book) :
  fetch_eth (Response 200 (JObject data)) = parse data.
Proof. reflexivity. Qed.

Lemma fetch_eth_status (status : Z) (data : json) :
  status <> 200 -> fetch_eth (Response status data) = Ok None.
Proof. intros H. simpl. rewrite decide_False by exact H. reflexivity. Qed.

(** Opens the disjunctions, conjunctions and existentials among the
    hypotheses and drops the cases with an impossible equation. *)
Ltac open_cases :=
  intros;
  repeat match goal with
         | H : _ \/ _ |- _ => destruct H
         | H : exists _, _ |- _ => destruct H
         | H : _ /\ _ |- _ => destruct H
         end;
  cbn [fetch_order_book_eth] in *; simplify_eq.

(** X10. What [fetch_order_book_eth] can answer, and for which
    answers of the network. It answers [None] exactly for a client
    error or a [KeyError] of the request, a status other than 200, a
    body without ["sellAmount"], or a body whose sell amount converts
    and which has no ["buyAmount"]. It returns an order book exactly
    when both amounts convert and the sell amount, divided by [1e18], is
    not zero: the book has the four entries ["bids"], ["asks"],
    ["price"] and ["estimatedPriceImpact"], the price being
    [(buy / 1e6) / (sell / 1e18)] and the impact the entry of the body,
    or the string ["0"] when the body has none.  In every other case an
    exception leaves it: the one that the request raised, if it is
    neither a client error nor a [KeyError], [TypeError] for a body that
    is no object, the error of [float] on the first amount that does not
    convert, [ZeroDivisionError] for a sell amount of zero; so that
    [KeyError] never comes out, and, apart from the exceptions of the
    request, only [ValueError], [TypeError], [OverflowError] and
    [ZeroDivisionError] do. *)
Theorem fetch_order_book_eth_answers (resp : http) :
  (fetch_eth resp = Ok None <->
     resp = ClientError \/ resp = OtherException KeyError \/
     (exists status data, resp = Response status data /\ status <> 200) \/
     (exists data, resp = Response 200 (JObject data) /\
        (data !! "sellAmount" = None \/
         (exists vs s, data !! "sellAmount" = Some vs /\ to_float vs = Ok s) /\
         data !! "buyAmount" = None))) /\
  (forall d, fetch_eth resp = Ok (Some d) <->
     exists data vs vb s b,
       resp = Response 200 (JObject data) /\
       data !! "sellAmount" = Some vs /\ to_float vs = Ok s /\
       data !! "buyAmount" = Some vb /\ to_float vb = Ok b /\
       is_zero (div s e18) = false /\
       d = book (div s e18) (div b e6) (div (div b e6) (div s e18))
             (default (VStr "0") (data !! "estimatedPriceImpact"))) /\
  (forall e, fetch_eth resp = Raise e <->
     resp = OtherException e /\ e <> KeyError \/
     (exists truthy, resp = Response 200 (JOther truthy) /\ e = TypeError) \/
     (exists data vs, resp = Response 200 (JObject data) /\
        data !! "sellAmount" = Some vs /\
        (to_float vs = Raise e \/
         exists s vb, to_float vs = Ok s /\ data !! "buyAmount" = Some vb /\
           (to_float vb = Raise e \/
            exists b, to_float vb = Ok b /\ is_zero (div s e18) = true /\
                      e = ZeroDivisionError)))) /\
  (forall e, fetch_eth resp = Raise e ->
     e <> KeyError /\
     (resp = OtherException e \/
      e = ValueError \/ e = TypeError \/ e = OverflowError \/ e = ZeroDivisionError)).
Proof.
  destruct resp as [| err | status [data | truthy]].
  - repeat split; open_cases; eauto 8; try discriminate.
  - destruct err; repeat split; open_cases; eauto 8; try discriminate.
    all: try (split; [discriminate | eauto 8]).
  - (* an object *)
    destruct (decide (status = 200)) as [-> | Hs].
    + rewrite fetch_eth_object. repeat split.
      * intros H. apply eth_parse_parsed in H. right; right; right. exists data.
        split; [reflexivity |]. inversion H; subst; [left; assumption | right; eauto].
      * open_cases; apply eth_parse_parsed; [now apply NoSell | eapply NoBuy; eauto].
      * intros H. apply eth_parse_parsed in H. inversion H; subst.
        exists data, vs, vb, s, b. auto 10.
      * open_cases. apply eth_parse_parsed. eapply Priced; eauto.
      * intros H. apply eth_parse_parsed in H. right; right.
        inversion H; subst; exists data, vs;
          (split; [reflexivity |]; split; [assumption |]);
          [left; assumption
          | right; exists s, vb; split; [assumption |]; split; [assumption |];
            left; assumption
          | right; exists s, vb; split; [assumption |]; split; [assumption |];
            right; exists b; auto].
      * open_cases; apply eth_parse_parsed;
          [eapply BadSell; eauto | eapply BadBuy; eauto | eapply ZeroSell; eauto].
      * apply eth_parse_parsed, parsed_error in H. intros ->.
        destruct H as [H | [H | [H | H]]]; discriminate.
      * apply eth_parse_parsed, parsed_error in H. auto.
    + rewrite (fetch_eth_status _ _ Hs). repeat split; open_cases; eauto 8; try discriminate.
  - (* a body that is no object *)
    destruct (decide (status = 200)) as [-> | Hs].
    + assert (Hf : fetch_eth (Response 200 (JOther truthy)) = Raise TypeError)
        by reflexivity.
      rewrite Hf. repeat split; open_cases; eauto 8; try discriminate.
    + rewrite (fetch_eth_status _ _ Hs). repeat split; open_cases; eauto 8; try discriminate.
Qed.

Lemma book_lookups (sell buy price : float) (impact : val) :
  book sell buy price impact !! "bids"
    = Some (VSeq [VSeq [VStr "0"; VStr (str_of_float sell)]]) /\
  book sell buy price impact !! "asks"
    = Some (VSeq [VSeq [VStr "0"; VStr (str_of_float buy)]]) /\
  book sell buy price impact !! "price" = Some (VFloat price) /\
  book sell buy price impact !! "estimatedPriceImpact" = Some impact /\
  falsy (Some (book sell buy price impact)) = false.
Proof.
  unfold eth_book, falsy. repeat split; try (simplify_map_eq; reflexivity).
Qed.

Lemma fetch_eth_Some (resp : http) (d : order_book) :
  fetch_eth resp = Ok (Some d) ->
  exists data sell buy price,
    resp = Response 200 (JObject data) /\
    d = book sell buy price (default (VStr "0") (data !! "estimatedPriceImpact")).
Proof.
  destruct resp as [| err | status [data | truthy]]; try discriminate;
    [destruct err; discriminate | |];
    simpl; destruct (decide (status = 200)) as [-> | Hs]; try discriminate.
  intros H. apply eth_parse_parsed in H. inversion H; subst. eauto 10.
Qed.
End Eth.

Section Pipeline.
Variable float_of_string : string -> option float.
Variable str_of_float : float -> string.
Variable float_loop : float -> list float -> float.

Abbreviation fetch := (fetch_order_book_eth float_of_string str_of_float).
Abbreviation ebook := (eth_book str_of_float).
Abbreviation depth := (calculate_depth float_of_string float_loop).

(** X11. The ETH fetcher never leaves the price impact out: for a
    body without ["estimatedPriceImpact"] it writes the string ["0"],
    and, [float("0")] being [0.0], [evaluate_liquidity] gives the order
    book the full score 100, not the 0 it keeps for a missing impact. *)
Theorem eth_missing_impact_scores_100 (status : Z) (data d : order_book) :
  float_of_string "0" = Some zero ->
  fetch (Response status (JObject data)) = Ok (Some d) ->
  data !! "estimatedPriceImpact" = None ->
  d !! "estimatedPriceImpact" = Some (VStr "0") /\
  evaluate_liquidity float_of_string d = Ok hundred.
Proof.
  intros H0 Hf Hnone.
  apply fetch_eth_Some in Hf as (data' & sell & buy & price & [= _ <-] & ->).
  rewrite Hnone. cbn [default].
  destruct (book_lookups str_of_float sell buy price (VStr "0")) as (_ & _ & _ & Hi & _).
  split; [exact Hi |].
  unfold evaluate_liquidity. rewrite Hi. cbn [Py.to_float]. rewrite H0.
  reflexivity.
Qed.

Lemma sum_sizes_one (price size : string) :
  Py.sum_sizes float_of_string float_loop [VSeq [VStr price; VStr size]]
  = match float_of_string size with
    | Some f => Ok (add zero f)
    | None => Raise ValueError
    end.
Proof. unfold Py.sum_sizes. cbn. destruct (float_of_string size); reflexivity. Qed.

(** X12. On an order book of the ETH fetcher [calculate_depth] never
    answers "invalid", and when it answers at all the spread is 0: both
    sides carry the literal price ["0"]. Where [float] reads back what
    [str] wrote, the depths are the sell and buy amounts, added to 0. *)
Theorem eth_depth_spread_zero (resp : http) (d : order_book) :
  float_of_string "0" = Some zero ->
  fetch resp = Ok (Some d) ->
  (forall r, depth (Some d) = Ok r ->
             r <> invalid_depth /\ r.2 = Some zero) /\
  (forall sell buy price impact s' b',
      d = ebook sell buy price impact ->
      float_of_string (str_of_float sell) = Some s' ->
      float_of_string (str_of_float buy) = Some b' ->
      depth (Some d)
        = Ok (Some (add zero s'), Some (add zero b'), Some zero)).
Proof.
  intros H0 Hf.
  apply fetch_eth_Some in Hf as (data & sell & buy & price & _ & ->).
  set (impact := default _ _).
  destruct (book_lookups str_of_float sell buy price impact) as (Hb & Ha & _).
  assert (Hd : depth (Some (ebook sell buy price impact))
               = (let* bd := (match float_of_string (str_of_float sell) with
                              | Some f => Ok (add zero f) | None => Raise ValueError end) in
                  let* ad := (match float_of_string (str_of_float buy) with
                              | Some f => Ok (add zero f) | None => Raise ValueError end) in
                  Ok (Some bd, Some ad, Some zero))).
  { unfold calculate_depth.
    rewrite (DepthMore.guard_passed _ _ _ Hb Ha).
    unfold getitem. rewrite Hb, Ha. cbn -[Py.sum_sizes]. rewrite !sum_sizes_one.
    destruct (float_of_string (str_of_float sell)); cbn; [| reflexivity].
    destruct (float_of_string (str_of_float buy)); cbn; [| reflexivity].
    rewrite H0. reflexivity. }
  split.
  - intros r. rewrite Hd.
    destruct (float_of_string (str_of_float sell)); cbn [Py.bind]; [| discriminate].
    destruct (float_of_string (str_of_float buy)); cbn [Py.bind]; [| discriminate].
    intros [= <-]. split; [discriminate | reflexivity].
  - intros sell' buy' price' impact' s' b' Heq Hs Hbuy.
    rewrite Heq in *. clear Hd Hb Ha.
    destruct (book_lookups str_of_float sell' buy' price' impact') as (Hb & Ha & _).
    unfold calculate_depth.
    rewrite (DepthMore.guard_passed _ _ _ Hb Ha).
    unfold getitem. rewrite Hb, Ha. cbn -[Py.sum_sizes]. rewrite !sum_sizes_one.
    rewrite Hs, Hbuy. cbn. rewrite H0. reflexivity.
Qed.

Lemma evaluate_liquidity_error (d : order_book) (e : exn) :
  evaluate_liquidity float_of_string d = Raise e ->
  e = ValueError \/ e = TypeError \/ e = OverflowError \/ e = ZeroDivisionError.
Proof.
  unfold evaluate_liquidity.
  destruct (d !! "estimatedPriceImpact") as [v |]; [| discriminate].
  destruct (Py.to_float float_of_string v) as [x | e'] eqn:Hx; cbn [Py.bind].
  - destruct (truediv one (add one x)) as [q | e'] eqn:Hq; cbn [Py.bind];
      [discriminate |].
    intros [= <-]. apply truediv_error in Hq. auto.
  - intros [= <-]. apply to_float_error in Hx. tauto.
Qed.

Lemma trend_decision_error (threshold : float) (history : list float) (e : exn) :
  trend_decision PRICE_HISTORY_LENGTH threshold history = Raise e ->
  e = ZeroDivisionError.
Proof.
  unfold trend_decision, PRICE_HISTORY_LENGTH.
  destruct (decide (length history = 5%nat)) as [Hlen |]; [| discriminate].
  destruct history as [| p0 rest]; [discriminate |].
  destruct (last (p0 :: rest)) as [newest |] eqn:Hl;
    [| apply last_None in Hl; discriminate].
  cbn [head].
  destruct (truediv (sub newest p0) p0) as [q | e'] eqn:Hq; cbn [Py.bind].
  - destruct (ltb threshold q && all_increasing (p0 :: rest)); discriminate.
  - intros [= <-]. apply truediv_error in Hq. exact Hq.
Qed.

(** X13. A monitor cycle run on what the ETH fetcher returned never
    fails for a missing key, a bad index or a price of the wrong type:
    the only exceptions that leave it are those of [float] on the price
    impact ([ValueError], [TypeError], [OverflowError]) and
    [ZeroDivisionError] (an impact of -1, or a zero at the old end of a
    full window). *)
Theorem eth_cycle_errors (resp : http) (ob : option order_book)
    (history : list float) (e : exn) :
  fetch resp = Ok ob ->
  monitor_cycle float_of_string ob history = Raise e ->
  e = ValueError \/ e = TypeError \/ e = OverflowError \/ e = ZeroDivisionError.
Proof.
  intros Hf. destruct ob as [d |]; [| discriminate].
  apply fetch_eth_Some in Hf as (data & sell & buy & price & _ & ->).
  set (impact := default _ _).
  destruct (book_lookups str_of_float sell buy price impact) as (_ & _ & Hp & _ & Hfalsy).
  unfold monitor_cycle. rewrite Hfalsy. unfold getitem. rewrite Hp. cbn [Py.bind].
  destruct (evaluate_liquidity float_of_string _) as [l | e'] eqn:Hl; cbn [Py.bind].
  - destruct (trend_decision _ _ _) as [t | e'] eqn:Ht; cbn [Py.bind]; [discriminate |].
    intros [= <-]. apply trend_decision_error in Ht. auto.
  - intros [= <-]. apply evaluate_liquidity_error in Hl. exact Hl.
Qed.
End Pipeline.

Lemma fetch_order_book_eth_answers_witness :
  fetch_order_book_eth demo_parse (fun _ => "1") (Response 200 (JObject bad_body))
    = Raise ValueError /\
  fetch_order_book_eth demo_parse (fun _ => "1") (Response 200 (JObject demo_body))
    = Ok (Some (eth_book (fun _ => "1") one one one (VStr "0"))).
Proof.
  split.
  - destruct (fetch_order_book_eth_answers demo_parse (fun _ => "1")
                (Response 200 (JObject bad_body))) as (_ & _ & H & _).
    apply H. right; right. exists bad_body, (VStr "abc").
    split; [reflexivity |]. split; [reflexivity |]. left. reflexivity.
  - destruct (fetch_order_book_eth_answers demo_parse (fun _ => "1")
                (Response 200 (JObject demo_body))) as (_ & H & _).
    apply H. exists demo_body, (VFloat e18), (VFloat e6), e18, e6.
    repeat split; vm_compute; reflexivity.
Defined.

Lemma eth_missing_impact_scores_100_witness :
  eth_book (fun _ => "1") one one one (VStr "0") !! "estimatedPriceImpact"
    = Some (VStr "0") /\
  evaluate_liquidity demo_parse (eth_book (fun _ => "1") one one one (VStr "0"))
    = Ok hundred.
Proof.
  apply (eth_missing_impact_scores_100 demo_parse (fun _ => "1") 200 demo_body);
    vm_compute; reflexivity.
Defined.

Lemma eth_depth_spread_zero_witness :
  calculate_depth demo_parse Py.plain_loop
    (Some (eth_book (fun _ => "1") one one one (VStr "0")))
    = Ok (Some one, Some one, Some zero).
Proof.
  destruct (eth_depth_spread_zero demo_parse (fun _ => "1") Py.plain_loop
              (Response 200 (JObject demo_body))
              (eth_book (fun _ => "1") one one one (VStr "0"))) as [_ H];
    [reflexivity | vm_compute; reflexivity |].
  apply (H one one one (VStr "0") one one); reflexivity.
Defined.

Lemma eth_cycle_errors_witness :
  OverflowError = ValueError \/ OverflowError = TypeError \/
  OverflowError = OverflowError \/ OverflowError = ZeroDivisionError.
Proof.
  apply (eth_cycle_errors demo_parse (fun _ => "1")
           (Response 200 (JObject (<[ "estimatedPriceImpact" := VBig false ]> demo_body)))
           (Some (eth_book (fun _ => "1") one one one (VBig false))) []);
    vm_compute; reflexivity.
Defined.

End FetchProps.

(** ** More on the monitor loop *)

Module MonitorMore.
Import F64 F64Facts Scoring Monitor Spec Vocabulary OrderProps.

Lemma push_price_grows (n : nat) (history : list float) (price : float) :
  (length (push_price n history price) <= S (length history))%nat.
Proof.
  unfold push_price. cbv zeta.
  destruct (decide _); rewrite ?length_drop, ?length_app; simpl; lia.
Qed.

Lemma push_price_last (history : list float) (price : float) :
  last (push_price PRICE_HISTORY_LENGTH history price) = Some price.
Proof.
  unfold push_price, PRICE_HISTORY_LENGTH. rewrite length_app. simpl.
  destruct (decide _) as [Hlt |]; [| apply last_snoc].
  destruct history as [| p0 rest]; [simpl in Hlt; lia |].
  simpl. apply last_snoc.
Qed.

(** Strictly increasing neighbours make the whole list strictly
    increasing. *)
Lemma pairs_increasing_sorted (history : list float) :
  pairs_increasing history ->
  forall j i a b, (i < j)%nat ->
    history !! i = Some a -> history !! j = Some b -> ltb a b = true.
Proof.
  intros Hp. induction j as [| j IH]; intros i a b Hij Ha Hb; [lia |].
  destruct (decide (i = j)) as [-> | Hne]; [eapply Hp; eauto |].
  destruct (lookup_lt_is_Some_2 history j) as [c Hc].
  { apply lookup_lt_Some in Hb. lia. }
  apply (ltb_trans a c b); [apply (IH i); [lia | assumption..] | eapply Hp; eauto].
Qed.

Lemma trend_signal_inv (n : nat) (threshold : float) (history : list float) (q : float) :
  trend_decision n threshold history = Ok (TrendSignal q) ->
  length history = n /\ pairs_increasing history /\ ltb threshold q = true /\
  exists newest oldest,
    last history = Some newest /\ head history = Some oldest /\
    is_zero oldest = false /\ q = div (sub newest oldest) oldest.
Proof.
  unfold trend_decision.
  destruct (decide (length history = n)) as [Hlen |]; [| discriminate].
  destruct (last history) as [newest |]; [| discriminate].
  destruct (head history) as [oldest |]; [| discriminate].
  unfold truediv. destruct (is_zero oldest) eqn:Hz; [discriminate |]. cbn [Py.bind].
  destruct (ltb threshold _) eqn:Hlt; [| discriminate]. cbn [andb].
  destruct (all_increasing history) eqn:Hall; [| discriminate].
  intros [= <-]. split; [exact Hlen |].
  split; [apply MonitorProps.all_increasing_spec, Hall |].
  split; [exact Hlt |]. exists newest, oldest. auto.
Qed.

(** X14. A trend signal is only given for a window that is strictly
    increasing as a whole: every earlier price compares below every
    later one (so none is a NaN and no two are equal), the oldest is not
    zero, and the increase signalled is above the threshold. *)
Theorem trend_signal_sorted (n : nat) (threshold : float) (history : list float)
    (q : float) :
  trend_decision n threshold history = Ok (TrendSignal q) ->
  ltb threshold q = true /\
  (forall i j a b, (i < j)%nat ->
     history !! i = Some a -> history !! j = Some b -> ltb a b = true) /\
  (forall oldest, head history = Some oldest -> is_zero oldest = false).
Proof.
  intros H. apply trend_signal_inv in H
    as (_ & Hp & Hlt & newest & oldest & _ & Hh & Hz & _).
  split; [exact Hlt |]. split.
  - intros i j a b. apply pairs_increasing_sorted, Hp.
  - intros o Ho. congruence.
Qed.

Lemma trend_signal_sorted_witness :
  ltb PRICE_INCREASE_THRESHOLD rising_increase = true /\
  ltb (dec 100 100) (dec 115 100) = true.
Proof.
  destruct (trend_signal_sorted 5 PRICE_INCREASE_THRESHOLD rising rising_increase)
    as (H1 & H2 & _); [vm_compute; reflexivity |].
  split; [exact H1 |].
  apply (H2 0%nat 4%nat); [lia | reflexivity | reflexivity].
Defined.

Section Loop.
Variable float_of_string : string -> option float.

Abbreviation cycle := (monitor_cycle float_of_string).
Abbreviation loop := (monitor_loop float_of_string).

Lemma cycle_email_inv (fetched : option order_book) (history history' : list float)
    (events : list event) (q p l : float) :
  cycle fetched history = Ok (history', events) ->
  In (Email q p l) events ->
  events = [Email q p l; LogInfo p l; Sleep CHECK_INTERVAL] /\
  leb LIQUIDITY_THRESHOLD l = true /\
  observed_price (Ok fetched) = Some p /\
  history' = push_price PRICE_HISTORY_LENGTH history p /\
  trend_decision PRICE_HISTORY_LENGTH PRICE_INCREASE_THRESHOLD history'
    = Ok (TrendSignal q).
Proof.
  intros Hc Hin.
  apply MonitorProps.monitor_cycle_inv in Hc
    as [(_ & _ & ->) | (d & p' & l' & t & -> & Hobs & Hl & -> & Ht & ->)].
  { simpl in Hin. destruct Hin as [H | [H | []]]; discriminate. }
  destruct t as [| q'].
  { simpl in Hin. destruct Hin as [H | [H | []]]; discriminate. }
  destruct (leb LIQUIDITY_THRESHOLD l') eqn:Hle.
  - simpl in Hin. destruct Hin as [H | [H | [H | []]]]; try discriminate.
    injection H as -> -> ->. auto.
  - simpl in Hin. destruct Hin as [H | [H | []]]; discriminate.
Qed.

(** X15. An alert is mailed in a cycle only when everything the code
    asks for holds together: the liquidity score of the fetched order
    book is at least 80, the history (with the new price at its end) is
    a full window of 5 strictly increasing prices, and the increase from
    the oldest to the newest price is above 10 percent; the mail carries
    that increase, the new price and the score, and it is the only mail
    of the cycle, followed by the log line and the sleep. *)
Theorem alert_only_when_due (fetched : option order_book)
    (history history' : list float) (events : list event) (q p l : float) :
  cycle fetched history = Ok (history', events) ->
  In (Email q p l) events ->
  events = [Email q p l; LogInfo p l; Sleep CHECK_INTERVAL] /\
  leb LIQUIDITY_THRESHOLD l = true /\
  (exists d, fetched = Some d /\ d !! "price" = Some (VFloat p) /\
             evaluate_liquidity float_of_string d = Ok l) /\
  length history' = PRICE_HISTORY_LENGTH /\ last history' = Some p /\
  pairs_increasing history' /\
  ltb PRICE_INCREASE_THRESHOLD q = true /\
  exists oldest, head history' = Some oldest /\ q = div (sub p oldest) oldest.
Proof.
  intros Hc Hin.
  destruct (cycle_email_inv _ _ _ _ _ _ _ Hc Hin) as (Hev & Hle & _ & Hh & Ht).
  split; [exact Hev |]. split; [exact Hle |].
  apply trend_signal_inv in Ht as (Hlen & Hp & Hlt & newest & oldest & Hl & Ho & _ & Hq).
  assert (Hlast : last history' = Some p) by (rewrite Hh; apply push_price_last).
  split.
  { apply MonitorProps.monitor_cycle_inv in Hc
      as [(_ & _ & Hev') | (d & p' & l' & t & -> & Hobs & Hl' & _ & _ & Hev')].
    - rewrite Hev' in Hev. discriminate.
    - exists d. unfold observed_price in Hobs.
      destruct (falsy (Some d)); [discriminate |].
      destruct (d !! "price") as [[| p'' | | |] |]; try discriminate.
      injection Hobs as ->.
      assert (p' = p /\ l' = l) as [-> ->].
      { rewrite Hev in Hev'. destruct t as [| q'];
          [discriminate | destruct (leb LIQUIDITY_THRESHOLD l'); [| discriminate]].
        injection Hev' as _ -> ->. auto. }
      auto. }
  split; [exact Hlen |]. split; [exact Hlast |]. split; [exact Hp |].
  split; [exact Hlt |]. exists oldest. split; [exact Ho |].
  rewrite Hl in Hlast. injection Hlast as ->. exact Hq.
Qed.

(** X16. As long as [monitor_token] runs, its price history is the
    last five prices of the order books it fetched, in the order of
    their arrival; failed fetches leave no trace in it. *)
Theorem history_is_last_five (feed : list (result (option order_book)))
    (final : list float) :
  snd (monitor_token float_of_string feed) = Running final ->
  final = drop (length (observed feed) - PRICE_HISTORY_LENGTH) (observed feed).
Proof.
  intros H. apply MonitorProps.monitor_loop_history in H. rewrite H.
  apply (MonitorProps.observe_all_last PRICE_HISTORY_LENGTH (observed feed)).
Qed.

Lemma monitor_loop_quiet (feed : list (result (option order_book))) :
  forall history,
    (length history + length (observed feed) < PRICE_HISTORY_LENGTH)%nat ->
    forall q p l, ~ In (Email q p l) (fst (loop feed history)).
Proof.
  induction feed as [| awaited feed IH]; intros history Hlen q p l; [simpl; tauto |].
  rewrite MonitorProps.monitor_loop_cons.
  destruct awaited as [fetched | e]; [| simpl; tauto].
  destruct (cycle fetched history) as [[h events] | e] eqn:Hc; [| simpl; tauto].
  destruct (loop feed h) as [later out] eqn:Hl. cbn [fst].
  rewrite MonitorProps.observed_cons in Hlen.
  rewrite in_app_iff. intros [Hin | Hin].
  - destruct (cycle_email_inv _ _ _ _ _ _ _ Hc Hin) as (_ & _ & Hobs & Hh & Ht).
    apply trend_signal_inv in Ht as (Hfull & _).
    rewrite Hobs in Hlen. simpl in Hlen.
    pose proof (push_price_grows PRICE_HISTORY_LENGTH history p). rewrite <- Hh in H.
    lia.
  - apply (IH h) with (q := q) (p := p) (l := l); [| rewrite Hl; exact Hin].
    apply MonitorProps.monitor_cycle_inv in Hc
      as [(Hobs & -> & _) | (d & p' & l' & t & _ & Hobs & _ & -> & _)];
      rewrite Hobs in Hlen; simpl in Hlen; [lia |].
    pose proof (push_price_grows PRICE_HISTORY_LENGTH history p'). lia.
Qed.

(** X17. [monitor_token] mails no alert before it has fetched five
    prices: on a feed with fewer than five order books carrying a price
    no mail is sent, whatever the prices and scores. *)
Theorem no_alert_before_five (feed : list (result (option order_book))) :
  (length (observed feed) < PRICE_HISTORY_LENGTH)%nat ->
  forall q p l, ~ In (Email q p l) (fst (monitor_token float_of_string feed)).
Proof.
  intros H. apply monitor_loop_quiet. simpl. exact H.
Qed.
End Loop.

Lemma alert_only_when_due_witness :
  [Email rising_increase (dec 115 100) hundred; LogInfo (dec 115 100) hundred;
   Sleep CHECK_INTERVAL]
  = [Email rising_increase (dec 115 100) hundred; LogInfo (dec 115 100) hundred;
     Sleep CHECK_INTERVAL] /\
  leb LIQUIDITY_THRESHOLD hundred = true.
Proof.
  destruct (alert_only_when_due (fun _ => None) (Some (quote (dec 115 100) zero))
              (take 4 rising) rising
              [Email rising_increase (dec 115 100) hundred;
               LogInfo (dec 115 100) hundred; Sleep CHECK_INTERVAL]
              rising_increase (dec 115 100) hundred) as (H1 & H2 & _).
  - vm_compute. reflexivity.
  - left. reflexivity.
  - split; [exact H1 | exact H2].
Defined.

Lemma history_is_last_five_witness :
  rising = drop (length (observed rising_feed) - PRICE_HISTORY_LENGTH)
                (observed rising_feed).
Proof.
  apply (history_is_last_five (fun _ => None) rising_feed rising).
  vm_compute. reflexivity.
Defined.

Lemma no_alert_before_five_witness :
  ~ In (Email rising_increase (dec 115 100) hundred)
       (fst (monitor_token (fun _ => None) (take 4 rising_feed))).
Proof.
  apply (no_alert_before_five (fun _ => None) (take 4 rising_feed)).
  vm_compute. lia.
Defined.

End MonitorMore.
